(** * downsizer.py: a shallow embedding and its verified properties

    The program reads [settings.cfg], walks a Django project for template
    directories, runs PurgeCSS once per configured stylesheet and gzips
    each purged stylesheet.  Python strings are [string], byte contents
    are [list Byte.byte], the file store is a [gmap] from paths to
    contents, exceptions are an explicit sum and console output and
    calls to the outside are recorded in an event trace. *)

From Stdlib Require Import Ascii.
From stdpp Require Import gmap strings list.

Local Open Scope char_scope.
Local Open Scope stdpp_scope.

(** ** Python string primitives used by the program *)

Module Str.

(** [s.startswith(p)] *)
Fixpoint startswith (s p : string) {struct p} : bool :=
  match p with
  | EmptyString => true
  | String a p' =>
      match s with
      | EmptyString => false
      | String b s' => if Ascii.eqb a b then startswith s' p' else false
      end
  end.

(** [sub in s] *)
Fixpoint contains (sub s : string) {struct s} : bool :=
  startswith s sub ||
  match s with
  | EmptyString => false
  | String _ s' => contains sub s'
  end.

(** [s.endswith(suf)] *)
Fixpoint endswith (s suf : string) {struct s} : bool :=
  String.eqb s suf ||
  match s with
  | EmptyString => false
  | String _ s' => endswith s' suf
  end.

(** [s.lstrip(' ')] *)
Fixpoint lstrip_space (s : string) : string :=
  match s with
  | EmptyString => EmptyString
  | String c s' => if Ascii.eqb c " " then lstrip_space s' else s
  end.

(** [s.rstrip(' ')] *)
Fixpoint rstrip_space (s : string) : string :=
  match s with
  | EmptyString => EmptyString
  | String c s' =>
      match rstrip_space s' with
      | EmptyString => if Ascii.eqb c " " then EmptyString else String c EmptyString
      | r => String c r
      end
  end.

(** [s.strip(' ')]: Python's [str.strip] removes the given characters from
    both ends of the string. *)
Definition strip_space (s : string) : string := rstrip_space (lstrip_space s).

(** [s.split(sep)] for a non-empty separator: left to right, occurrences do
    not overlap.  [skip] counts the characters of a matched separator that
    are still to be dropped and [cur] is the piece being accumulated. *)
Fixpoint split_aux (sep : string) (skip : nat) (cur s : string) {struct s}
  : list string :=
  match s with
  | EmptyString => [cur]
  | String c s' =>
      match skip with
      | S k => split_aux sep k cur s'
      | O =>
          if startswith s sep
          then cur :: split_aux sep (String.length sep - 1) EmptyString s'
          else split_aux sep O (cur +:+ String c EmptyString) s'
      end
  end.

Definition split (s sep : string) : list string := split_aux sep O EmptyString s.

(** [sep.join(l)] *)
Fixpoint join (sep : string) (l : list string) : string :=
  match l with
  | [] => EmptyString
  | [x] => x
  | x :: rest => x +:+ sep +:+ join sep rest
  end.

(** [s.lower()] on ASCII letters, the [optionxform] of [ConfigParser]. *)
Definition lower_char (c : ascii) : ascii :=
  let n := nat_of_ascii c in
  if (65 <=? n)%nat && (n <=? 90)%nat then ascii_of_nat (n + 32) else c.

Fixpoint lower (s : string) : string :=
  match s with
  | EmptyString => EmptyString
  | String c s' => String (lower_char c) (lower s')
  end.

End Str.

(** ** [os.path] (POSIX flavour) *)

Module Path.

(** [posixpath.basename]: what follows the last slash. *)
Fixpoint basename_aux (cur p : string) {struct p} : string :=
  match p with
  | EmptyString => cur
  | String c p' =>
      if Ascii.eqb c "/" then basename_aux EmptyString p'
      else basename_aux (cur +:+ String c EmptyString) p'
  end.

Definition basename (p : string) : string := basename_aux EmptyString p.

(** [posixpath.join a b] *)
Definition join (a b : string) : string :=
  if Str.startswith b "/" then b
  else if String.eqb a "" || Str.endswith a "/" then a +:+ b
  else a +:+ "/" +:+ b.

End Path.

(** ** The directory tree and [os.walk] *)

#[local] Set Warnings "-register-all".

(** A directory holds the names of its non-directory entries and its
    sub-directories, both in the order [os.scandir] lists them. *)
Inductive Tree : Type :=
  | Node (files : list string) (subdirs : list (string * Tree)).

(** One item yielded by [os.walk]: [(root, dirs, files)]. *)
Record WalkEntry := mkWalkEntry {
  we_root : string;
  we_dirs : list string;
  we_files : list string
}.

(** [os.walk(top)], top-down and without following links: the directory
    itself first, then each sub-directory in listing order, under the path
    [os.path.join(top, name)]. *)
Fixpoint os_walk (top : string) (t : Tree) : list WalkEntry :=
  match t with
  | Node files subdirs =>
      mkWalkEntry top (map fst subdirs) files ::
      (fix walk_subdirs (ds : list (string * Tree)) : list WalkEntry :=
         match ds with
         | [] => []
         | (name, sub) :: ds' => os_walk (Path.join top name) sub ++ walk_subdirs ds'
         end) subdirs
  end.

(** ** The template-directory scan of [main] (lines 34-42) *)

(** Python's [any] over a generator expression. *)
Definition any {A} (f : A → bool) (l : list A) : bool := existsb f l.

(** The body of the [for root, dirs, files in os.walk(...)] loop. *)
Definition scan_step (django_apps : list string)
    (html_glob_patterns : list string) (e : WalkEntry) : list string :=
  if any (fun app => Str.contains app (we_root e)) django_apps
     && negb (Str.contains "around" (we_root e))
  then
    if any (fun file => Str.endswith file ".html") (we_files e)
    then html_glob_patterns ++ [we_root e +:+ "/*.html"]
    else html_glob_patterns
  else html_glob_patterns.

Definition scan (django_apps : list string) (walk : list WalkEntry) : list string :=
  fold_left (scan_step django_apps) walk [].

(** [os.walk] yields nothing when [top] cannot be listed. *)
Definition walk_from (fs_tree : string → option Tree) (top : string) : list WalkEntry :=
  match fs_tree top with
  | Some t => os_walk top t
  | None => []
  end.

(** ** Exceptions *)

Inductive exn : Type :=
  | FileNotFoundError (msg : string)
  | InvalidConfigFile (msg : string)
  | OtherException (cls msg : string).

(** [str(e)] *)
Definition str_exn (e : exn) : string :=
  match e with
  | FileNotFoundError m | InvalidConfigFile m | OtherException _ m => m
  end.

Definition result (A : Type) : Type := exn + A.

(** ** [configparser.ConfigParser] *)

Record ConfigParser := mkConfigParser {
  cp_defaults : gmap string string;
  cp_sections : gmap string (gmap string string)
}.

Definition default_section : string := "DEFAULT".

(** [len(config)], which decides the truth value of a parser object. *)
Definition config_len (c : ConfigParser) : nat := size (cp_sections c) + 1.

Definition has_key (d : gmap string string) (k : string) : bool :=
  bool_decide (is_Some (d !! k)).

(** [config.has_option(section, option)] *)
Definition has_option (c : ConfigParser) (section option : string) : bool :=
  if String.eqb section "" || String.eqb section default_section
  then has_key (cp_defaults c) (Str.lower option)
  else
    match cp_sections c !! section with
    | None => false
    | Some d => has_key d (Str.lower option) || has_key (cp_defaults c) (Str.lower option)
    end.

(** The value [config.get] finds before interpolation: the section's own
    entry first, then the defaults. *)
Definition raw_get (c : ConfigParser) (section option : string) : result string :=
  let lookup_in (d : gmap string string) : result string :=
    match d !! Str.lower option with
    | Some v => inr v
    | None =>
        match cp_defaults c !! Str.lower option with
        | Some v => inr v
        | None =>
            inl (OtherException "NoOptionError"
                   ("No option '" +:+ Str.lower option +:+ "' in section: '" +:+ section +:+ "'"))
        end
    end in
  match cp_sections c !! section with
  | Some d => lookup_in d
  | None =>
      if String.eqb section default_section then lookup_in ∅
      else inl (OtherException "NoSectionError" ("No section: '" +:+ section +:+ "'"))
  end.

(** ** The outside world *)

Record CompletedProcess := mkCompletedProcess {
  args : string;
  returncode : Z;
  stdout : string;
  stderr : string
}.

(** A [gzip.GzipFile] opened for writing: its internal state, what a
    [write] does to it and the bytes the file holds once closed. *)
Record GzipWriter := mkGzipWriter {
  gz_state : Type;
  gz_open : gz_state;
  gz_write : gz_state → list Byte.byte → gz_state;
  gz_close : gz_state → list Byte.byte
}.

(** What the program does not define itself: the platform, the outcome of
    opening and parsing a configuration file, value interpolation of
    [ConfigParser.get], the directory trees on disk, the shell command
    runner (which may change files) and the gzip writer. *)
Record Env := mkEnv {
  platform_system : string;
  read_file : string → result ConfigParser;
  before_get : ConfigParser → string → string → string → result string;
  fs_tree : string → option Tree;
  subprocess_run : string → gmap string (list Byte.byte)
                   → CompletedProcess * gmap string (list Byte.byte);
  gzip_writer : GzipWriter
}.

(** [config.get(section, option)] *)
Definition get (env : Env) (c : ConfigParser) (section option : string) : result string :=
  match raw_get c section option with
  | inl e => inl e
  | inr value => before_get env c section (Str.lower option) value
  end.

(** Console lines and calls leaving the program, in the order they happen.
    [EvCompress] marks an entry into [compress_purged_file]. *)
Inductive event : Type :=
  | EvPrint (line : string)
  | EvRun (command : string)
  | EvCompress (output_dir purged_file : string).

Record World := mkWorld {
  w_files : gmap string (list Byte.byte);
  w_trace : list event
}.

(** ** A state-and-exception monad for the effectful functions *)

Definition M (A : Type) : Type := World → result A * World.

#[export] Instance M_ret : MRet M := λ A (a : A) w, (inr a, w).

#[export] Instance M_bind : MBind M := λ A B (f : A → M B) (m : M A) w,
  match m w with
  | (inl e, w') => (inl e, w')
  | (inr a, w') => f a w'
  end.

Definition raise {A} (e : exn) : M A := λ w, (inl e, w).

Definition lift {A} (r : result A) : M A := λ w, (r, w).

Definition emit (e : event) : M unit :=
  λ w, (inr tt, mkWorld (w_files w) (w_trace w ++ [e])).

Definition print (line : string) : M unit := emit (EvPrint line).

(** [os.path.isfile(path)] *)
Definition isfile (path : string) : M bool :=
  λ w, (inr (bool_decide (is_Some (w_files w !! path))), w).

(** [open(path, 'rb').read()] *)
Definition read_bytes (path : string) : M (list Byte.byte) :=
  λ w, match w_files w !! path with
       | Some content => (inr content, w)
       | None =>
           (inl (FileNotFoundError
                   ("[Errno 2] No such file or directory: '" +:+ path +:+ "'")), w)
       end.

Definition write_bytes (path : string) (content : list Byte.byte) : M unit :=
  λ w, (inr tt, mkWorld (<[path := content]> (w_files w)) (w_trace w)).

(** [subprocess.run(command, shell=True, text=True, capture_output=True)] *)
Definition run (env : Env) (command : string) : M CompletedProcess :=
  λ w, let '(r, files') := subprocess_run env command (w_files w) in
       (inr r, mkWorld files' (w_trace w ++ [EvRun command])).

(** [for x in l: body(x)] *)
Fixpoint for_each {A} (l : list A) (body : A → M unit) : M unit :=
  match l with
  | [] => mret tt
  | x :: rest => body x ;; for_each rest body
  end.

(** ** [shutil.copyfileobj] into a gzip writer *)

(** The buffer size of [shutil.copyfileobj] on POSIX. *)
Definition COPY_BUFSIZE : nat := N.to_nat 65536.

(** [while buf := fsrc.read(length): fdst.write(buf)].  Every turn of the
    loop consumes at least one byte, so [fuel] bounds the turns. *)
Fixpoint copy_loop (g : GzipWriter) (fuel length : nat)
    (src : list Byte.byte) (dst : gz_state g) : gz_state g :=
  match fuel with
  | O => dst
  | S fuel' =>
      match take length src with
      | [] => dst
      | buf => copy_loop g fuel' length (drop length src) (gz_write g dst buf)
      end
  end.

Definition copyfileobj (g : GzipWriter) (src : list Byte.byte) (dst : gz_state g)
  : gz_state g :=
  copy_loop g (List.length src) COPY_BUFSIZE src dst.

(** ** The program *)

Section Program.

Context (env : Env).

(** [css_filename.split('.css')[0]]: [split] never returns an empty list. *)
Definition css_filename_prefix (css_filename : string) : string :=
  default EmptyString (head (Str.split css_filename ".css")).

Definition output_filename (css_file : string) : string :=
  css_filename_prefix (Path.basename css_file) +:+ "-purged.css".

Definition purgecss_command (glob_patterns : list string)
    (css_file output_dir : string) : string :=
  "purgecss --css " +:+ css_file +:+ " "
  +:+ "--content " +:+ Str.join " " glob_patterns +:+ " "
  +:+ "--output " +:+ output_dir +:+ "/" +:+ output_filename css_file.

Definition npx_command (glob_patterns : list string)
    (css_file output_dir : string) : string :=
  if String.eqb (platform_system env) "Windows"
  then "npx " +:+ purgecss_command glob_patterns css_file output_dir
  else "bash -c 'source $HOME/.nvm/nvm.sh && npx "
       +:+ purgecss_command glob_patterns css_file output_dir +:+ "'".

(** [purge_css_file] (lines 59-100) *)
Definition purge_css_file (glob_patterns : list string)
    (css_file output_dir : string) : M (CompletedProcess * string) :=
  exists_ ← isfile css_file;
  (if negb exists_
   then print ("Error: CSS File " +:+ css_file
               +:+ " does not exist. Please check the file paths.")
   else print ("Running PurgeCSS command: "
               +:+ purgecss_command glob_patterns css_file output_dir));;
  result ← run env (npx_command glob_patterns css_file output_dir);
  mret (result, output_filename css_file).

(** [compress_purged_file] (lines 103-117) *)
Definition compress_purged_file (output_dir purged_file : string) : M string :=
  emit (EvCompress output_dir purged_file);;
  let filepath := output_dir +:+ "/" +:+ purged_file in
  f_in ← read_bytes filepath;
  write_bytes (filepath +:+ ".gz")
    (gz_close (gzip_writer env)
       (copyfileobj (gzip_writer env) f_in (gz_open (gzip_writer env))));;
  mret filepath.

Definition options_required_keys : list string :=
  ["input_css_files"; "output_directory"; "django_directory"; "django_apps"].

(** The [for key in options_required_keys] loop inside the [try] of
    [check_config], followed by [return True]. *)
Fixpoint check_keys (config_object : ConfigParser) (keys : list string) : result bool :=
  match keys with
  | [] => inr true
  | key :: rest =>
      if negb (has_option config_object "SETTINGS" key)
      then inl (InvalidConfigFile ("Missing or empty key " +:+ key +:+ " in [OPTIONS]"))
      else
        match get env config_object "SETTINGS" key with
        | inl e => inl e
        | inr value =>
            if String.eqb value ""
            then inl (InvalidConfigFile
                        ("Missing or empty key " +:+ key +:+ " in [OPTIONS]"))
            else check_keys config_object rest
        end
  end.

(** [check_config] (lines 157-175): whatever the [try] body raises is
    caught by [except Exception] and raised again as [InvalidConfigFile]. *)
Definition check_config (config_object : ConfigParser) : result bool :=
  match check_keys config_object options_required_keys with
  | inl e => inl (InvalidConfigFile ("Error while checking config: " +:+ str_exn e))
  | inr b => inr b
  end.

(** [load_and_check_config] (lines 132-154).  The declared return type is
    [Optional[ConfigParser]]. *)
Definition load_and_check_config (filename : string) : result (option ConfigParser) :=
  match read_file env filename with
  | inl (FileNotFoundError _) =>
      inl (InvalidConfigFile ("Config file " +:+ filename +:+ " not found."))
  | inl e =>
      inl (InvalidConfigFile
             ("An error occurred while reading the config file: " +:+ str_exn e))
  | inr config_object =>
      match check_config config_object with
      | inl e => inl e
      | inr true => inr (Some config_object)
      | inr false => inl (InvalidConfigFile ("Invalid configuration in " +:+ filename))
      end
  end.

(** [not config] for a value of type [Optional[ConfigParser]]. *)
Definition config_is_falsy (config : option ConfigParser) : bool :=
  match config with
  | None => true
  | Some c => Nat.eqb (config_len c) 0
  end.

(** [[x.strip(' ') for x in value.split(',')]] (lines 26 and 31) *)
Definition split_setting (value : string) : list string :=
  map Str.strip_space (Str.split value ",").

(** What [main] does after [purge_css_file] returned (lines 47-56). *)
Definition report_and_compress (output_dir : string)
    (purge_result : CompletedProcess) (purged_filename : string) : M unit :=
  if String.eqb (stdout purge_result) "" && String.eqb (stderr purge_result) ""
  then
    print "PurgeCSS command completed successfully.";;
    print ("Purged CSS file saved to: " +:+ purged_filename);;
    compressed_file ← compress_purged_file output_dir purged_filename;
    print ("Compressed file saved as: " +:+ compressed_file)
  else
    print "PurgeCSS output:";;
    print (stdout purge_result);;
    print "PurgeCSS errors:";;
    print (stderr purge_result).

(** The body of [for css_file in css_files] (lines 45-56). *)
Definition process_css_file (html_glob_patterns : list string)
    (output_dir css_file : string) : M unit :=
  '(purge_result, purged_filename) ←
      purge_css_file html_glob_patterns css_file output_dir;
  report_and_compress output_dir purge_result purged_filename.

(** [main] (lines 10-56) *)
Definition main : M unit :=
  config ← lift (load_and_check_config "settings.cfg");
  if config_is_falsy config
  then print "Config file set incorrectly."
  else
    match config with
    | None => mret tt
    | Some config =>
        django_project_directory ← lift (get env config "SETTINGS" "django_directory");
        css_files ← lift (get env config "SETTINGS" "input_css_files");
        let css_files := split_setting css_files in
        output_dir ← lift (get env config "SETTINGS" "output_directory");
        django_apps ← lift (get env config "SETTINGS" "django_apps");
        let django_apps := split_setting django_apps in
        let html_glob_patterns :=
          scan django_apps (walk_from (fs_tree env) django_project_directory) in
        for_each css_files (process_css_file html_glob_patterns output_dir)
    end.

End Program.

(** ** Specification vocabulary *)

(** [sub] occurs somewhere inside [s]. *)
Definition is_substring (sub s : string) : Prop := ∃ l r, s = l +:+ sub +:+ r.

(** [s] ends in [suf]. *)
Definition has_suffix (suf s : string) : Prop := ∃ l, s = l +:+ suf.

(** A qualifying directory: its path contains an app-name fragment, does
    not contain "around", and one of its own files ends in ".html". *)
Definition qualifying_dir (django_apps : list string) (e : WalkEntry) : Prop :=
  (∃ app, app ∈ django_apps ∧ is_substring app (we_root e))
  ∧ ¬ is_substring "around" (we_root e)
  ∧ (∃ file, file ∈ we_files e ∧ has_suffix ".html" file).

(** The same as a test, to select and count qualifying directories. *)
Definition is_qualifying (django_apps : list string) (e : WalkEntry) : bool :=
  existsb (λ app, Str.contains app (we_root e)) django_apps
  && negb (Str.contains "around" (we_root e))
  && existsb (λ file, Str.endswith file ".html") (we_files e).

Definition glob_of (e : WalkEntry) : string := we_root e +:+ "/*.html".

(** The part of a walk below the top directory. *)
Definition os_walk_subdirs (top : string) (subdirs : list (string * Tree))
  : list WalkEntry :=
  flat_map (λ d, os_walk (Path.join top d.1) d.2) subdirs.

(** The events a computation adds to the trace of [w]. *)
Definition new_events {A} (m : M A) (w : World) : list event :=
  drop (length (w_trace w)) (w_trace (m w).2).

(** [n] space characters. *)
Fixpoint spaces (n : nat) : string :=
  match n with
  | O => EmptyString
  | S n' => String " " (spaces n')
  end.

(** In the specification's words, a base name without its ".css"
    extension: the final ".css" taken off, when the name ends in one. *)
Definition without_css_extension (name : string) : string :=
  if Str.endswith name ".css"
  then String.substring 0 (String.length name - 4) name
  else name.

(** The result [purge_css_file] captures for [css_file] in world [w], and
    the world it leaves behind. *)
Definition purge_result_of (env : Env) (glob_patterns : list string)
    (css_file output_dir : string) (w : World) : CompletedProcess :=
  (subprocess_run env (npx_command env glob_patterns css_file output_dir)
     (w_files w)).1.

Definition world_after_purge (env : Env) (glob_patterns : list string)
    (css_file output_dir : string) (w : World) : World :=
  mkWorld
    (subprocess_run env (npx_command env glob_patterns css_file output_dir)
       (w_files w)).2
    (w_trace w ++
       [EvPrint
          (if bool_decide (is_Some (w_files w !! css_file))
           then "Running PurgeCSS command: "
                +:+ purgecss_command glob_patterns css_file output_dir
           else "Error: CSS File " +:+ css_file
                +:+ " does not exist. Please check the file paths.");
        EvRun (npx_command env glob_patterns css_file output_dir)]).

(** The four lines [main] prints when a stream is not empty. *)
Definition failure_lines (r : CompletedProcess) : list event :=
  [EvPrint "PurgeCSS output:"; EvPrint (stdout r);
   EvPrint "PurgeCSS errors:"; EvPrint (stderr r)].

(** A required key as [check_config] wants it: an option of SETTINGS whose
    value is not empty. *)
Definition key_present (env : Env) (c : ConfigParser) (key : string) : Prop :=
  has_option c "SETTINGS" key = true
  ∧ ∃ value, get env c "SETTINGS" key = inr value ∧ value ≠ "".

(** [load_and_check_config] with the [else] branch after [check_config]
    taken out. *)
Definition load_and_check_config_without_else (env : Env) (filename : string)
  : result (option ConfigParser) :=
  match read_file env filename with
  | inl (FileNotFoundError _) =>
      inl (InvalidConfigFile ("Config file " +:+ filename +:+ " not found."))
  | inl e =>
      inl (InvalidConfigFile
             ("An error occurred while reading the config file: " +:+ str_exn e))
  | inr config_object =>
      match check_config env config_object with
      | inl e => inl e
      | inr _ => inr (Some config_object)
      end
  end.

(** ** A concrete environment, used to run the model *)

Module Demo.

Import Byte.

(** A writer that stores the data behind the two gzip magic bytes; its
    reader strips them again. *)
Definition stored_writer : GzipWriter :=
  mkGzipWriter (list Byte.byte) [] (λ st buf, st ++ buf) (λ st, x1f :: x8b :: st).

Definition stored_reader (data : list Byte.byte) : option (list Byte.byte) :=
  match data with
  | x1f :: x8b :: rest => Some rest
  | _ => None
  end.

Definition settings : ConfigParser :=
  mkConfigParser ∅
    {[ "SETTINGS" :=
         {[ "django_directory" := "proj";
            "input_css_files" := "static/a.css , static/b.css";
            "output_directory" := "out";
            "django_apps" := "blog, shop" ]} ]}.

(** The settings of above without [django_apps]. *)
Definition settings_without_apps : ConfigParser :=
  mkConfigParser ∅
    {[ "SETTINGS" :=
         {[ "django_directory" := "proj";
            "input_css_files" := "static/a.css , static/b.css";
            "output_directory" := "out" ]} ]}.

Definition project : Tree :=
  Node ["manage.py"]
    [("blog", Node ["views.py"]
        [("templates", Node ["post.html"; "notes.txt"] [])]);
     ("shop", Node ["cart.html"] []);
     ("turnaround_shop", Node ["x.html"] []);
     ("docs", Node ["index.html"] [])].

Definition body_a : list Byte.byte := [x61; x7b; x7d].

(** PurgeCSS stand-in: silent success for [a.css], writing the purged file;
    a complaint on standard error and exit status 0 for anything else. *)
Definition runner (command : string) (files : gmap string (list Byte.byte))
  : CompletedProcess * gmap string (list Byte.byte) :=
  if Str.contains "--css static/a.css " command
  then (mkCompletedProcess command 0 "" "", <["out/a-purged.css" := body_a]> files)
  else (mkCompletedProcess command 0 "" "Error: no such file", files).

Definition env_with (read : string → result ConfigParser) : Env :=
  mkEnv "Linux" read (λ _ _ _ value, inr value)
    (λ top, if String.eqb top "proj" then Some project else None)
    runner stored_writer.

Definition env : Env :=
  env_with (λ filename,
    if String.eqb filename "settings.cfg" then inr settings
    else inl (FileNotFoundError "[Errno 2] No such file or directory")).

(** No [settings.cfg] on disk. *)
Definition env_no_file : Env :=
  env_with (λ _, inl (FileNotFoundError "[Errno 2] No such file or directory")).

(** A [settings.cfg] that lacks [django_apps]. *)
Definition env_missing_key : Env := env_with (λ _, inr settings_without_apps).

Definition world0 : World := mkWorld {[ "static/a.css" := body_a ]} [].

(** After a silent PurgeCSS run for [a.css]. *)
Definition world1 : World :=
  mkWorld {[ "static/a.css" := body_a; "out/a-purged.css" := body_a ]} [].

End Demo.

(** ** Further vocabulary *)

(** How often the character [c] occurs in [s]. *)
Fixpoint count_char (c : ascii) (s : string) : nat :=
  match s with
  | EmptyString => 0
  | String d s' => (if Ascii.eqb c d then 1 else 0) + count_char c s'
  end.

(** The commands of the [EvRun] events of a trace, in order. *)
Definition runs_of (evs : list event) : list string :=
  omap (λ e, match e with EvRun command => Some command | _ => None end) evs.

(** No directory name of the tree holds a slash, as on a real file system. *)
Fixpoint tree_names_ok (t : Tree) : bool :=
  match t with
  | Node _ subdirs =>
      (fix all_ok (ds : list (string * Tree)) : bool :=
         match ds with
         | [] => true
         | (name, sub) :: ds' =>
             negb (Str.contains "/" name) && tree_names_ok sub && all_ok ds'
         end) subdirs
  end.

(** The bytes [compress_purged_file] puts into the ".gz" file for a purged
    file holding [content]. *)
Definition gzip_of (env : Env) (content : list Byte.byte) : list Byte.byte :=
  gz_close (gzip_writer env)
    (copyfileobj (gzip_writer env) content (gz_open (gzip_writer env))).

(** What [main] adds to the trace after a silent purge run when the purged
    file is there, and when it is not. *)
Definition success_lines (output_dir name : string) : list event :=
  [EvPrint "PurgeCSS command completed successfully.";
   EvPrint ("Purged CSS file saved to: " +:+ name);
   EvCompress output_dir name;
   EvPrint ("Compressed file saved as: " +:+ output_dir +:+ "/" +:+ name)].

Definition aborted_lines (output_dir name : string) : list event :=
  [EvPrint "PurgeCSS command completed successfully.";
   EvPrint ("Purged CSS file saved to: " +:+ name);
   EvCompress output_dir name].

(** The command [purge_css_file] runs for [css_file]. *)
Definition command_for (env : Env) (glob_patterns : list string)
    (output_dir css_file : string) : string :=
  npx_command env glob_patterns css_file output_dir.

(** Induction on a tree with the hypothesis for every sub-directory. *)
Fixpoint Tree_ind_subdirs (P : Tree → Prop)
    (step : ∀ files subdirs, Forall (λ d, P d.2) subdirs → P (Node files subdirs))
    (t : Tree) : P t :=
  match t with
  | Node files subdirs =>
      step files subdirs
        ((fix all_subdirs (ds : list (string * Tree)) : Forall (λ d, P d.2) ds :=
            match ds with
            | [] => List.Forall_nil _
            | d :: ds' =>
                List.Forall_cons _ d ds' (Tree_ind_subdirs P step d.2) (all_subdirs ds')
            end) subdirs)
  end.

(** The test the scan is left with once the fragment test always holds. *)
Definition has_own_html_outside_around (e : WalkEntry) : bool :=
  negb (Str.contains "around" (we_root e))
  && existsb (λ file, Str.endswith file ".html") (we_files e).

(** The purge run for [css_file] is silent, leaves the purged file at its
    destination and removes no file, whatever files it starts from. *)
Definition purge_succeeds_for (env : Env) (glob_patterns : list string)
    (output_dir css_file : string) : Prop :=
  ∀ files,
    let out := subprocess_run env
                 (command_for env glob_patterns output_dir css_file) files in
    stdout out.1 = "" ∧ stderr out.1 = ""
    ∧ is_Some (out.2 !! (output_dir +:+ "/" +:+ output_filename css_file))
    ∧ ∀ path, is_Some (files !! path) → is_Some (out.2 !! path).

(** Further environments to run the model in. *)
Module Scenario.

(** PurgeCSS stand-in that prints nothing and writes nothing. *)
Definition silent_runner (command : string) (files : gmap string (list Byte.byte))
  : CompletedProcess * gmap string (list Byte.byte) :=
  (mkCompletedProcess command 0 "" "", files).




(** All four keys in [DEFAULT], no [SETTINGS] section. *)
Definition settings_in_default : ConfigParser :=
  mkConfigParser
    {[ "django_directory" := "proj";
       "input_css_files" := "static/a.css";
       "output_directory" := "out";
       "django_apps" := "blog" ]}
    ∅.

Definition env_default : Env :=
  mkEnv "Linux" (λ _, inr settings_in_default) (λ _ _ _ value, inr value)
    (λ _, None) silent_runner Demo.stored_writer.

(** A value with a stray percent sign. *)
Definition settings_percent : ConfigParser :=
  mkConfigParser ∅
    {[ "SETTINGS" :=
         {[ "django_directory" := "proj";
            "input_css_files" := "static/a.css";
            "output_directory" := "out%";
            "django_apps" := "blog" ]} ]}.

(** Interpolation that rejects a percent sign, as [BasicInterpolation]
    does for one that starts no reference. *)
Definition strict_before_get (_ : ConfigParser) (_ _ : string) (value : string)
  : result string :=
  if Str.contains "%" value
  then inl (OtherException "InterpolationSyntaxError"
              "'%' must be followed by '%' or '(', found: '%'")
  else inr value.

Definition env_percent : Env :=
  mkEnv "Linux" (λ _, inr settings_percent) strict_before_get
    (λ _, None) silent_runner Demo.stored_writer.

End Scenario.

Example walk_demo :
  os_walk "proj"
    (Node ["manage.py"]
       [("blog", Node [] [("templates", Node ["a.html"; "b.txt"] [])]);
        ("turnaround_blog", Node ["x.html"] [])])
  = [mkWalkEntry "proj" ["blog"; "turnaround_blog"] ["manage.py"];
     mkWalkEntry "proj/blog" ["templates"] [];
     mkWalkEntry "proj/blog/templates" [] ["a.html"; "b.txt"];
     mkWalkEntry "proj/turnaround_blog" [] ["x.html"]].
Proof. reflexivity. Qed.

(** A run of [main]: [a.css] is purged silently and compressed, [b.css]
    does not exist, PurgeCSS complains and nothing is compressed. *)
Example main_demo :
  (main Demo.env Demo.world0).1 = inr tt
  ∧ w_trace (main Demo.env Demo.world0).2
    = [EvPrint "Running PurgeCSS command: purgecss --css static/a.css --content proj/blog/templates/*.html proj/shop/*.html --output out/a-purged.css";
       EvRun "bash -c 'source $HOME/.nvm/nvm.sh && npx purgecss --css static/a.css --content proj/blog/templates/*.html proj/shop/*.html --output out/a-purged.css'";
       EvPrint "PurgeCSS command completed successfully.";
       EvPrint "Purged CSS file saved to: a-purged.css";
       EvCompress "out" "a-purged.css";
       EvPrint "Compressed file saved as: out/a-purged.css";
       EvPrint "Error: CSS File static/b.css does not exist. Please check the file paths.";
       EvRun "bash -c 'source $HOME/.nvm/nvm.sh && npx purgecss --css static/b.css --content proj/blog/templates/*.html proj/shop/*.html --output out/b-purged.css'";
       EvPrint "PurgeCSS output:"; EvPrint "";
       EvPrint "PurgeCSS errors:"; EvPrint "Error: no such file"]
  ∧ dom (w_files (main Demo.env Demo.world0).2)
    = {[ "static/a.css"; "out/a-purged.css"; "out/a-purged.css.gz" ]}.
Proof. split_and!; by vm_compute. Qed.

(** Fragments match as substrings, not as path segments, and "around"
    excludes a directory that would match otherwise. *)
Example scan_demo :
  scan ["log"]
    [mkWalkEntry "proj/weblogs" [] ["list.html"];
     mkWalkEntry "proj/log/playaround" [] ["x.html"];
     mkWalkEntry "proj/log" ["templates"] ["README"];
     mkWalkEntry "proj/log/templates" [] ["a.txt"; "b.html"]]
  = ["proj/weblogs/*.html"; "proj/log/templates/*.html"].
Proof. reflexivity. Qed.

Example split_demo :
  Str.split "a.css, b.css ,," "," = ["a.css"; " b.css "; ""; ""]
  ∧ Str.split "a.css.min.css" ".css" = ["a"; ".min"; ""]
  ∧ Str.strip_space "  b c  " = "b c"
  ∧ Path.basename "static/css/site.css" = "site.css"
  ∧ Str.lower "Django_Apps" = "django_apps".
Proof. repeat split; reflexivity. Qed.

(** ** Facts about the string primitives *)

Section StringFacts.

Lemma str_app_nil_l (s : string) : "" +:+ s = s.
Proof. reflexivity. Qed.

Lemma str_app_cons (c : ascii) (s t : string) :
  String c s +:+ t = String c (s +:+ t).
Proof. reflexivity. Qed.

Lemma str_app_assoc (s1 s2 s3 : string) : (s1 +:+ s2) +:+ s3 = s1 +:+ s2 +:+ s3.
Proof.
  induction s1 as [|c s1 IH]; [done|].
  rewrite !str_app_cons. by f_equal.
Qed.

Lemma str_app_nil_r (s : string) : s +:+ "" = s.
Proof.
  induction s as [|c s IH]; [done|].
  rewrite str_app_cons. by f_equal.
Qed.

Lemma str_length_app (s1 s2 : string) :
  String.length (s1 +:+ s2) = String.length s1 + String.length s2.
Proof.
  induction s1 as [|c s1 IH]; [done|].
  rewrite str_app_cons. simpl. by rewrite IH.
Qed.

Lemma startswith_spec (s p : string) :
  Str.startswith s p = true ↔ ∃ r, s = p +:+ r.
Proof.
  revert s. induction p as [|a p IH]; intros s; simpl.
  - split; [by exists s | done].
  - destruct s as [|b s].
    + split; [done | intros [r Hr]; by rewrite str_app_cons in Hr].
    + destruct (Ascii.eqb_spec a b) as [->|Hne].
      * rewrite IH. split; intros [r Hr]; exists r.
        -- by rewrite str_app_cons, Hr.
        -- rewrite str_app_cons in Hr. congruence.
      * split; [done | intros [r Hr]; rewrite str_app_cons in Hr; congruence].
Qed.

Lemma contains_spec (sub s : string) :
  Str.contains sub s = true ↔ is_substring sub s.
Proof.
  unfold is_substring. induction s as [|c s IH]; simpl.
  - rewrite orb_false_r, startswith_spec. split.
    + intros [r Hr]. by exists "", r.
    + intros (l & r & Hlr). destruct l as [|c' l].
      * by exists r.
      * by rewrite str_app_cons in Hlr.
  - rewrite orb_true_iff, startswith_spec, IH. split.
    + intros [[r Hr]|(l & r & Hlr)].
      * by exists "", r.
      * exists (String c l), r. by rewrite str_app_cons, Hlr.
    + intros (l & r & Hlr). destruct l as [|c' l].
      * left. by exists r.
      * right. exists l, r. rewrite str_app_cons in Hlr. congruence.
Qed.

Lemma endswith_unfold (s suf : string) :
  Str.endswith s suf =
  String.eqb s suf ||
  match s with
  | EmptyString => false
  | String _ s' => Str.endswith s' suf
  end.
Proof. by destruct s. Qed.

Lemma endswith_spec (s suf : string) :
  Str.endswith s suf = true ↔ has_suffix suf s.
Proof.
  unfold has_suffix. induction s as [|c s IH]; rewrite endswith_unfold.
  - rewrite orb_false_r, String.eqb_eq. split.
    + intros <-. by exists "".
    + intros [l Hl]. destruct l as [|c' l]; [done|].
      by rewrite str_app_cons in Hl.
  - rewrite orb_true_iff, String.eqb_eq, IH. split.
    + intros [<-|[l Hl]]; [by exists "" |].
      exists (String c l). by rewrite str_app_cons, Hl.
    + intros [l Hl]. destruct l as [|c' l].
      * by left.
      * right. exists l. rewrite str_app_cons in Hl. congruence.
Qed.

End StringFacts.

(** ** The directory scan *)

Section Scan.

Context (django_apps : list string).

Lemma any_contains_spec (root : string) :
  any (λ app, Str.contains app root) django_apps = true
  ↔ ∃ app, app ∈ django_apps ∧ is_substring app root.
Proof.
  unfold any. rewrite existsb_exists.
  split; intros (app & Hin & Happ); exists app.
  - by rewrite list_elem_of_In, <- contains_spec.
  - by rewrite <- list_elem_of_In, contains_spec.
Qed.

Lemma any_endswith_spec (files : list string) :
  any (λ file, Str.endswith file ".html") files = true
  ↔ ∃ file, file ∈ files ∧ has_suffix ".html" file.
Proof.
  unfold any. rewrite existsb_exists.
  split; intros (f & Hin & Hf); exists f.
  - by rewrite list_elem_of_In, <- endswith_spec.
  - by rewrite <- list_elem_of_In, endswith_spec.
Qed.

Lemma is_qualifying_spec (e : WalkEntry) :
  is_qualifying django_apps e = true ↔ qualifying_dir django_apps e.
Proof.
  unfold is_qualifying, qualifying_dir.
  rewrite !andb_true_iff, negb_true_iff.
  fold (any (λ app, Str.contains app (we_root e)) django_apps).
  fold (any (λ file, Str.endswith file ".html") (we_files e)).
  rewrite any_contains_spec, any_endswith_spec, <- contains_spec.
  rewrite not_true_iff_false. tauto.
Qed.

Lemma scan_step_is_qualifying (acc : list string) (e : WalkEntry) :
  scan_step django_apps acc e =
  if is_qualifying django_apps e then acc ++ [glob_of e] else acc.
Proof.
  unfold scan_step, is_qualifying, any, glob_of.
  destruct (existsb _ django_apps); simpl; [|done].
  destruct (Str.contains "around" (we_root e)); simpl; [done|].
  by destruct (existsb _ (we_files e)).
Qed.

Lemma fold_scan_step (walk : list WalkEntry) (acc : list string) :
  fold_left (scan_step django_apps) walk acc =
  acc ++ map glob_of (List.filter (is_qualifying django_apps) walk).
Proof.
  revert acc. induction walk as [|e walk IH]; intros acc; simpl.
  - by rewrite app_nil_r.
  - rewrite IH, scan_step_is_qualifying.
    destruct (is_qualifying django_apps e); simpl; [|done].
    by rewrite <- app_assoc.
Qed.

Lemma scan_filter (walk : list WalkEntry) :
  scan django_apps walk = map glob_of (List.filter (is_qualifying django_apps) walk).
Proof. unfold scan. by rewrite fold_scan_step. Qed.

Lemma os_walk_unfold (top : string) (files : list string)
    (subdirs : list (string * Tree)) :
  os_walk top (Node files subdirs) =
  mkWalkEntry top (map fst subdirs) files :: os_walk_subdirs top subdirs.
Proof.
  simpl. f_equal. unfold os_walk_subdirs.
  induction subdirs as [|[name sub] ds IH]; simpl; [done | by rewrite IH].
Qed.

(** C1: the scan of a walk is the list of the patterns "<dir>/*.html" of
    its qualifying directories, one per qualifying directory and in the
    order of the walk; so a tree with N qualifying directories gives
    exactly N patterns.  The selecting test holds exactly of the
    qualifying directories. *)
Theorem scan_one_glob_per_qualifying_dir (top : string) (t : Tree) :
  scan django_apps (os_walk top t)
    = map (λ e, we_root e +:+ "/*.html")
          (List.filter (is_qualifying django_apps) (os_walk top t))
  ∧ length (scan django_apps (os_walk top t))
    = length (List.filter (is_qualifying django_apps) (os_walk top t))
  ∧ (∀ e, is_qualifying django_apps e = true ↔ qualifying_dir django_apps e).
Proof.
  split_and!.
  - apply scan_filter.
  - by rewrite scan_filter, length_map.
  - apply is_qualifying_spec.
Qed.

(** C2: a visited directory contributes its pattern if and only if it is a
    qualifying directory (a fragment occurs in its path as a plain
    substring, "around" does not, one of its own files ends in ".html");
    otherwise the list is left as it was.  A directory none of whose own
    files ends in ".html" contributes nothing, whatever its
    sub-directories hold. *)
Theorem scan_includes_iff_qualifying :
  (∀ acc e,
     (scan_step django_apps acc e = acc ++ [we_root e +:+ "/*.html"]
      ↔ qualifying_dir django_apps e)
     ∧ (¬ qualifying_dir django_apps e → scan_step django_apps acc e = acc))
  ∧ (∀ top files subdirs,
       (∀ file, file ∈ files → ¬ has_suffix ".html" file) →
       scan django_apps (os_walk top (Node files subdirs))
       = scan django_apps (os_walk_subdirs top subdirs)).
Proof.
  split.
  - intros acc e. rewrite scan_step_is_qualifying, <- is_qualifying_spec.
    unfold glob_of. destruct (is_qualifying django_apps e).
    + split; [done | intros H; by destruct H].
    + split; [|done]. split; [|done].
      intros H. apply (f_equal length) in H. rewrite length_app in H.
      simpl in H. lia.
  - intros top files subdirs Hnone.
    rewrite os_walk_unfold. unfold scan. simpl.
    rewrite scan_step_is_qualifying.
    destruct (is_qualifying django_apps _) eqn:Hq; [|done].
    apply is_qualifying_spec in Hq. destruct Hq as (_ & _ & f & Hin & Hf).
    by destruct (Hnone f Hin).
Qed.

End Scan.

(** ** The effectful functions *)

Ltac unfold_M :=
  unfold mbind, M_bind, mret, M_ret, print, emit, isfile, read_bytes,
    write_bytes, run, raise, lift.

Section Effects.

Context (env : Env).

Lemma new_events_app {A} (m : M A) (w : World) (r : result A)
    (files : gmap string (list Byte.byte)) (evs : list event) :
  m w = (r, mkWorld files (w_trace w ++ evs)) → new_events m w = evs.
Proof. intros H. unfold new_events. rewrite H. simpl. by rewrite drop_app_length. Qed.

(** [purge_css_file] always runs the command and returns. *)
Lemma purge_css_file_run (glob_patterns : list string)
    (css_file output_dir : string) (w : World) :
  purge_css_file env glob_patterns css_file output_dir w =
  (inr (purge_result_of env glob_patterns css_file output_dir w,
        output_filename css_file),
   world_after_purge env glob_patterns css_file output_dir w).
Proof.
  unfold purge_css_file, purge_result_of, world_after_purge. unfold_M. simpl.
  destruct (bool_decide (is_Some (w_files w !! css_file))); simpl;
    destruct (subprocess_run env _ (w_files w)) as [r files'];
    simpl; by rewrite <- app_assoc.
Qed.

(** C9: when the CSS source path is not a file, [purge_css_file] prints
    the error line and goes on: the command is still built and run, and
    the function returns the captured result with the computed purged
    file name. *)
Theorem purge_missing_source_still_runs (glob_patterns : list string)
    (css_file output_dir : string) (w : World) :
  w_files w !! css_file = None →
  purge_css_file env glob_patterns css_file output_dir w =
  (inr ((subprocess_run env (npx_command env glob_patterns css_file output_dir)
           (w_files w)).1,
        output_filename css_file),
   mkWorld
     (subprocess_run env (npx_command env glob_patterns css_file output_dir)
        (w_files w)).2
     (w_trace w ++
        [EvPrint ("Error: CSS File " +:+ css_file
                  +:+ " does not exist. Please check the file paths.");
         EvRun (npx_command env glob_patterns css_file output_dir)])).
Proof.
  intros Hmissing. rewrite purge_css_file_run.
  unfold purge_result_of, world_after_purge.
  rewrite bool_decide_eq_false_2; [done|].
  rewrite Hmissing. by intros [? ?].
Qed.

(** What [compress_purged_file] does when the purged file is there. *)
Lemma compress_purged_file_present (output_dir purged_file : string)
    (w : World) (content : list Byte.byte) :
  w_files w !! (output_dir +:+ "/" +:+ purged_file) = Some content →
  compress_purged_file env output_dir purged_file w =
  (inr (output_dir +:+ "/" +:+ purged_file),
   mkWorld
     (<[(output_dir +:+ "/" +:+ purged_file) +:+ ".gz" :=
          gz_close (gzip_writer env)
            (copyfileobj (gzip_writer env) content (gz_open (gzip_writer env)))]>
        (w_files w))
     (w_trace w ++ [EvCompress output_dir purged_file])).
Proof.
  intros Hfile. unfold compress_purged_file. unfold_M. simpl.
  by rewrite Hfile.
Qed.

(** ... and when it is not: the exception leaves the function. *)
Lemma compress_purged_file_absent (output_dir purged_file : string) (w : World) :
  w_files w !! (output_dir +:+ "/" +:+ purged_file) = None →
  compress_purged_file env output_dir purged_file w =
  (inl (FileNotFoundError
          ("[Errno 2] No such file or directory: '"
           +:+ (output_dir +:+ "/" +:+ purged_file) +:+ "'")),
   mkWorld (w_files w) (w_trace w ++ [EvCompress output_dir purged_file])).
Proof.
  intros Hfile. unfold compress_purged_file. unfold_M. simpl.
  by rewrite Hfile.
Qed.

Lemma str_app_neq_self (s t : string) : t ≠ "" → s ≠ s +:+ t.
Proof.
  intros Ht Heq. apply (f_equal String.length) in Heq.
  rewrite str_length_app in Heq. destruct t; [done|]. simpl in Heq. lia.
Qed.

(** C7: [compress_purged_file] writes the compressed data to the path of
    the purged file with ".gz" appended and returns the path of the
    purged file itself, "<output_dir>/<purged_file>", which is not the
    path of the compressed file. *)
Theorem compress_returns_purged_path (output_dir purged_file : string)
    (w : World) (content : list Byte.byte) :
  w_files w !! (output_dir +:+ "/" +:+ purged_file) = Some content →
  compress_purged_file env output_dir purged_file w =
  (inr (output_dir +:+ "/" +:+ purged_file),
   mkWorld
     (<[(output_dir +:+ "/" +:+ purged_file) +:+ ".gz" :=
          gz_close (gzip_writer env)
            (copyfileobj (gzip_writer env) content (gz_open (gzip_writer env)))]>
        (w_files w))
     (w_trace w ++ [EvCompress output_dir purged_file]))
  ∧ output_dir +:+ "/" +:+ purged_file
    ≠ (output_dir +:+ "/" +:+ purged_file) +:+ ".gz".
Proof.
  intros Hfile. split.
  - by apply compress_purged_file_present.
  - by apply str_app_neq_self.
Qed.

(** [copyfileobj] hands the source to the writer in pieces that, put
    together again, are the source. *)
Lemma copy_loop_chunks (g : GzipWriter) (length_ : nat) :
  0 < length_ →
  ∀ (fuel : nat) (src : list Byte.byte) (dst : gz_state g),
    length src ≤ fuel →
    ∃ chunks, copy_loop g fuel length_ src dst = fold_left (gz_write g) chunks dst
              ∧ concat chunks = src.
Proof.
  intros Hpos fuel. induction fuel as [|fuel IH]; intros src dst Hfuel.
  - exists []. destruct src; [done | simpl in Hfuel; lia].
  - simpl. destruct (take length_ src) as [|b buf] eqn:Htake.
    + exists []. split; [done|].
      destruct src as [|x src]; [done|].
      destruct length_; [lia | done].
    + destruct (IH (drop length_ src) (gz_write g dst (b :: buf))) as (chunks & Hc & Hcat).
      * rewrite length_drop.
        assert (length src ≠ 0) by (destruct src; [by rewrite take_nil in Htake | done]).
        lia.
      * exists ((b :: buf) :: chunks). split; [done|].
        rewrite concat_cons, Hcat, <- Htake. apply take_drop.
Qed.

Lemma COPY_BUFSIZE_pos : 0 < COPY_BUFSIZE.
Proof. unfold COPY_BUFSIZE. lia. Qed.

Lemma copyfileobj_chunks (g : GzipWriter) (src : list Byte.byte) (dst : gz_state g) :
  ∃ chunks, copyfileobj g src dst = fold_left (gz_write g) chunks dst
            ∧ concat chunks = src.
Proof. apply copy_loop_chunks; [apply COPY_BUFSIZE_pos | done]. Qed.

(** C8: round trip.  For a gzip reader [gunzip] that recovers whatever was
    written through the gzip writer, compressing a purged file with
    [compress_purged_file] and reading the produced ".gz" file back gives
    the bytes of the purged file, which itself is left as it was. *)
Theorem gzip_round_trip (gunzip : list Byte.byte → option (list Byte.byte)) :
  (∀ chunks,
     gunzip (gz_close (gzip_writer env)
               (fold_left (gz_write (gzip_writer env)) chunks
                  (gz_open (gzip_writer env))))
     = Some (concat chunks)) →
  ∀ (output_dir purged_file : string) (w : World) (content : list Byte.byte),
    w_files w !! (output_dir +:+ "/" +:+ purged_file) = Some content →
    ∃ w' compressed,
      compress_purged_file env output_dir purged_file w
        = (inr (output_dir +:+ "/" +:+ purged_file), w')
      ∧ w_files w' !! ((output_dir +:+ "/" +:+ purged_file) +:+ ".gz")
        = Some compressed
      ∧ gunzip compressed = Some content
      ∧ w_files w' !! (output_dir +:+ "/" +:+ purged_file) = Some content.
Proof.
  intros Hcodec output_dir purged_file w content Hfile.
  eexists _, _. split; [by apply compress_purged_file_present|].
  simpl. split_and!.
  - apply lookup_insert_eq.
  - destruct (copyfileobj_chunks (gzip_writer env) content
                (gz_open (gzip_writer env))) as (chunks & -> & <-).
    apply Hcodec.
  - rewrite lookup_insert_ne; [done|].
    intros Heq. symmetry in Heq. by apply str_app_neq_self in Heq.
Qed.

(** *** The loop over the CSS files *)

Lemma process_css_file_unfold (glob_patterns : list string)
    (output_dir css_file : string) (w : World) :
  process_css_file env glob_patterns output_dir css_file w =
  report_and_compress env output_dir
    (purge_result_of env glob_patterns css_file output_dir w)
    (output_filename css_file)
    (world_after_purge env glob_patterns css_file output_dir w).
Proof.
  unfold process_css_file, mbind, M_bind.
  by rewrite purge_css_file_run.
Qed.

Lemma report_streams_not_empty (output_dir : string) (r : CompletedProcess)
    (name : string) (w : World) :
  ¬ (stdout r = "" ∧ stderr r = "") →
  report_and_compress env output_dir r name w =
  (inr tt, mkWorld (w_files w) (w_trace w ++ failure_lines r)).
Proof.
  intros Hne. unfold report_and_compress, failure_lines.
  destruct (String.eqb_spec (stdout r) ""), (String.eqb_spec (stderr r) "");
    simpl; try tauto; unfold_M; simpl; by rewrite <- !app_assoc.
Qed.

Lemma bind_print {A} (line : string) (k : M A) (w : World) :
  (print line;; k) w = k (mkWorld (w_files w) (w_trace w ++ [EvPrint line])).
Proof. reflexivity. Qed.

Lemma bind_run {A B} (m : M A) (f : A → M B) (w : World) :
  (m ≫= f) w =
  match m w with
  | (inl e, w') => (inl e, w')
  | (inr a, w') => f a w'
  end.
Proof. reflexivity. Qed.

Lemma report_streams_empty (output_dir : string) (r : CompletedProcess)
    (name : string) (w : World) :
  stdout r = "" → stderr r = "" →
  ∃ res files rest,
    report_and_compress env output_dir r name w =
    (res, mkWorld files
            (w_trace w ++
               EvPrint "PurgeCSS command completed successfully."
               :: EvPrint ("Purged CSS file saved to: " +:+ name)
               :: EvCompress output_dir name :: rest)).
Proof.
  intros Hout Herr. unfold report_and_compress.
  rewrite Hout, Herr, String.eqb_refl. cbn [andb].
  rewrite !bind_print, bind_run.
  destruct (w_files w !! (output_dir +:+ "/" +:+ name)) as [content|] eqn:Hfile.
  - erewrite compress_purged_file_present by done.
    eexists _, _, [_]. unfold print, emit. cbn [w_trace w_files].
    by rewrite <- !app_assoc.
  - erewrite compress_purged_file_absent by done.
    eexists _, _, []. cbn [w_trace w_files]. by rewrite <- !app_assoc.
Qed.

Lemma report_ignores_returncode (output_dir : string) (r r' : CompletedProcess)
    (name : string) :
  stdout r = stdout r' → stderr r = stderr r' →
  report_and_compress env output_dir r name
  = report_and_compress env output_dir r' name.
Proof. intros Hout Herr. unfold report_and_compress. by rewrite Hout, Herr. Qed.

(** C3: for every CSS file of the list, [compress_purged_file] is entered
    if and only if the captured standard output and standard error of the
    purge run are both the empty string; two results with the same
    streams are treated alike, whatever their exit status; when a stream
    is not empty the two streams are printed, nothing is compressed, no
    file changes, and the loop goes on with the next CSS file. *)
Theorem compress_iff_both_streams_empty (glob_patterns : list string)
    (output_dir : string) :
  (∀ css_file w,
     (∃ d f, EvCompress d f ∈
               new_events (process_css_file env glob_patterns output_dir css_file) w)
     ↔ stdout (purge_result_of env glob_patterns css_file output_dir w) = ""
       ∧ stderr (purge_result_of env glob_patterns css_file output_dir w) = "")
  ∧ (∀ r r' name,
       stdout r = stdout r' → stderr r = stderr r' →
       report_and_compress env output_dir r name
       = report_and_compress env output_dir r' name)
  ∧ (∀ css_file rest w,
       let r := purge_result_of env glob_patterns css_file output_dir w in
       let w1 := world_after_purge env glob_patterns css_file output_dir w in
       ¬ (stdout r = "" ∧ stderr r = "") →
       process_css_file env glob_patterns output_dir css_file w
       = (inr tt, mkWorld (w_files w1) (w_trace w1 ++ failure_lines r))
       ∧ for_each (css_file :: rest)
           (process_css_file env glob_patterns output_dir) w
         = for_each rest (process_css_file env glob_patterns output_dir)
             (mkWorld (w_files w1) (w_trace w1 ++ failure_lines r))).
Proof.
  split_and!.
  - intros css_file w.
    set (r := purge_result_of env glob_patterns css_file output_dir w).
    destruct (decide (stdout r = "" ∧ stderr r = "")) as [[Hout Herr]|Hne].
    + split; [done|]. intros _.
      destruct (report_streams_empty output_dir r (output_filename css_file)
                  (world_after_purge env glob_patterns css_file output_dir w)
                  Hout Herr) as (res & files & rest & Hrep).
      exists output_dir, (output_filename css_file).
      erewrite new_events_app.
      2:{ rewrite process_css_file_unfold. fold r. rewrite Hrep.
          unfold world_after_purge. simpl. by rewrite <- app_assoc. }
      set_solver.
    + split; [|done]. intros (d & f & Hin). exfalso.
      erewrite new_events_app in Hin.
      2:{ rewrite process_css_file_unfold. fold r.
          rewrite report_streams_not_empty by done.
          unfold world_after_purge. simpl. by rewrite <- app_assoc. }
      unfold failure_lines in Hin.
      apply elem_of_app in Hin as [Hin|Hin];
        rewrite !elem_of_cons, elem_of_nil in Hin; intuition discriminate.
  - intros r r' name. apply report_ignores_returncode.
  - intros css_file rest w r w1 Hne.
    assert (process_css_file env glob_patterns output_dir css_file w
            = (inr tt, mkWorld (w_files w1) (w_trace w1 ++ failure_lines r))) as Hstep.
    { rewrite process_css_file_unfold. by apply report_streams_not_empty. }
    split; [done|].
    simpl. unfold mbind, M_bind. by rewrite Hstep.
Qed.

End Effects.

(** ** The configuration loader *)

Ltac first_char_differs H :=
  rewrite ?str_app_cons in H; discriminate H.

Section Config.

Context (env : Env).

Lemma check_keys_not_false (c : ConfigParser) (keys : list string) :
  check_keys env c keys ≠ inr false.
Proof.
  induction keys as [|key keys IH]; simpl; [done|].
  destruct (has_option c "SETTINGS" key); simpl; [|done].
  destruct (get env c "SETTINGS" key) as [e|value]; [done|].
  by destruct (String.eqb value "").
Qed.

Lemma check_keys_true (c : ConfigParser) (keys : list string) :
  check_keys env c keys = inr true ↔ Forall (key_present env c) keys.
Proof.
  unfold key_present. induction keys as [|key keys IH]; simpl.
  - split; [constructor | done].
  - rewrite Forall_cons, <- IH.
    destruct (has_option c "SETTINGS" key); simpl.
    2:{ split; [done | by intros [[? _] _]]. }
    destruct (get env c "SETTINGS" key) as [e|value].
    { split; [done | by intros [[_ (v & ? & _)] _]]. }
    destruct (String.eqb_spec value "") as [->|Hne].
    + split; [done | intros [[_ (v & Hv & Hnev)] _]; congruence].
    + split; [by eauto | by intros [_ ?]].
Qed.

Lemma check_config_not_false (c : ConfigParser) : check_config env c ≠ inr false.
Proof.
  unfold check_config.
  destruct (check_keys env c options_required_keys) as [e|b] eqn:Hkeys; [done|].
  intros Heq. injection Heq as ->. by eapply check_keys_not_false.
Qed.

Lemma check_config_true_or_raises (c : ConfigParser) :
  check_config env c = inr true
  ∨ ∃ msg, check_config env c = inl (InvalidConfigFile msg).
Proof.
  pose proof (check_config_not_false c) as Hnf. revert Hnf.
  unfold check_config.
  destruct (check_keys env c options_required_keys) as [e|[|]]; eauto.
  by intros [].
Qed.

(** C10: [check_config] never returns False.  It returns True exactly when
    each of the four required keys is an option of SETTINGS with a
    non-empty value, and raises [InvalidConfigFile] otherwise; so
    [load_and_check_config] never takes its [else] branch and never
    raises "Invalid configuration in <filename>". *)
Theorem check_config_never_false (c : ConfigParser) :
  check_config env c ≠ inr false
  ∧ (check_config env c = inr true
     ∨ ∃ msg, check_config env c = inl (InvalidConfigFile msg))
  ∧ (check_config env c = inr true
     ↔ ∀ key, key ∈ options_required_keys →
         has_option c "SETTINGS" key = true
         ∧ ∃ value, get env c "SETTINGS" key = inr value ∧ value ≠ "")
  ∧ (∀ filename,
       load_and_check_config env filename
       ≠ inl (InvalidConfigFile ("Invalid configuration in " +:+ filename)))
  ∧ (∀ filename,
       load_and_check_config env filename
       = load_and_check_config_without_else env filename).
Proof.
  split_and!.
  - apply check_config_not_false.
  - apply check_config_true_or_raises.
  - unfold check_config.
    destruct (check_keys env c options_required_keys) as [e|b] eqn:Hkeys.
    + split; [done|]. intros Hall.
      assert (check_keys env c options_required_keys = inr true) as Heq
        by (by apply check_keys_true, Forall_forall).
      congruence.
    + rewrite <- Forall_forall. fold (key_present env c).
      rewrite <- check_keys_true, Hkeys. split; congruence.
  - intros filename. unfold load_and_check_config.
    destruct (read_file env filename) as [[m|m|cls m]|config_object].
    + intros H. first_char_differs H.
    + intros H. first_char_differs H.
    + intros H. first_char_differs H.
    + destruct (check_config_true_or_raises config_object) as [->|[msg Hmsg]];
        [done|].
      rewrite Hmsg. revert Hmsg. unfold check_config.
      destruct (check_keys env config_object options_required_keys); [|done].
      intros [= <-] H. first_char_differs H.
  - intros filename.
    unfold load_and_check_config, load_and_check_config_without_else.
    destruct (read_file env filename) as [e|config_object]; [done|].
    pose proof (check_config_not_false config_object) as Hnf.
    by destruct (check_config env config_object) as [e|[|]].
Qed.

Lemma load_and_check_config_not_none (filename : string) :
  load_and_check_config env filename ≠ inr None.
Proof.
  unfold load_and_check_config.
  destruct (read_file env filename) as [[m|m|cls m]|config_object]; try done.
  by destruct (check_config env config_object) as [e|[|]].
Qed.

Lemma load_and_check_config_outcomes (filename : string) :
  (∃ c, load_and_check_config env filename = inr (Some c))
  ∨ ∃ msg, load_and_check_config env filename = inl (InvalidConfigFile msg).
Proof.
  unfold load_and_check_config.
  destruct (read_file env filename) as [[m|m|cls m]|config_object]; eauto.
  destruct (check_config_true_or_raises config_object) as [->|[msg ->]]; eauto.
Qed.

(** Every failure of the loader leaves [main] as an exception, before
    anything is printed. *)
Lemma main_propagates_loader_failure (e : exn) (w : World) :
  load_and_check_config env "settings.cfg" = inl e → main env w = (inl e, w).
Proof. intros H. unfold main, lift, mbind, M_bind. by rewrite H. Qed.

(** A parser object is never falsy, so with a loaded configuration
    [main] goes on to the scan and to the loop over the CSS files. *)
Lemma main_runs_loop (c : ConfigParser) (dir css out apps : string) (w : World) :
  load_and_check_config env "settings.cfg" = inr (Some c) →
  get env c "SETTINGS" "django_directory" = inr dir →
  get env c "SETTINGS" "input_css_files" = inr css →
  get env c "SETTINGS" "output_directory" = inr out →
  get env c "SETTINGS" "django_apps" = inr apps →
  main env w =
  for_each (split_setting css)
    (process_css_file env
       (scan (split_setting apps) (walk_from (fs_tree env) dir)) out) w.
Proof.
  intros Hload Hdir Hcss Hout Happs.
  unfold main, lift, mbind, M_bind. rewrite Hload.
  unfold config_is_falsy, config_len. rewrite Nat.add_1_r. cbn [Nat.eqb].
  by rewrite Hdir, Hcss, Hout, Happs.
Qed.

End Config.

(** C4: the loader does not return "nothing" on failure: it never returns
    None at all, and a missing file or a missing required key makes it
    raise [InvalidConfigFile], which leaves [main] without the line
    "Config file set incorrectly." ever being printed. *)
Theorem loader_raises_on_failure :
  (∀ env filename, load_and_check_config env filename ≠ inr None)
  ∧ (∀ env filename,
       (∃ c, load_and_check_config env filename = inr (Some c))
       ∨ ∃ msg, load_and_check_config env filename = inl (InvalidConfigFile msg))
  ∧ load_and_check_config Demo.env_no_file "settings.cfg"
    = inl (InvalidConfigFile "Config file settings.cfg not found.")
  ∧ main Demo.env_no_file Demo.world0
    = (inl (InvalidConfigFile "Config file settings.cfg not found."), Demo.world0)
  ∧ load_and_check_config Demo.env_missing_key "settings.cfg"
    = inl (InvalidConfigFile
             "Error while checking config: Missing or empty key django_apps in [OPTIONS]")
  ∧ main Demo.env_missing_key Demo.world0
    = (inl (InvalidConfigFile
              "Error while checking config: Missing or empty key django_apps in [OPTIONS]"),
       Demo.world0).
Proof.
  split_and!.
  - intros env filename. apply load_and_check_config_not_none.
  - intros env filename. apply load_and_check_config_outcomes.
  - reflexivity.
  - by apply main_propagates_loader_failure.
  - by vm_compute.
  - by apply main_propagates_loader_failure; vm_compute.
Qed.

(** ** Splitting the comma-separated settings *)

Section Strip.

Lemma lstrip_space_spec (s : string) :
  ∃ n, s = spaces n +:+ Str.lstrip_space s.
Proof.
  induction s as [|c s [n IH]]; simpl.
  - by exists 0.
  - destruct (Ascii.eqb_spec c " ") as [->|Hne].
    + exists (S n). simpl. by rewrite str_app_cons, <- IH.
    + by exists 0.
Qed.

Lemma startswith_space (s : string) :
  Str.startswith s " " = true ↔ ∃ r, s = String " " r.
Proof.
  rewrite startswith_spec. split; intros [r Hr]; exists r; by rewrite Hr.
Qed.

Lemma lstrip_space_cons (c : ascii) (s : string) :
  Str.lstrip_space (String c s) =
  if Ascii.eqb c " " then Str.lstrip_space s else String c s.
Proof. reflexivity. Qed.

Lemma rstrip_space_cons (c : ascii) (s : string) :
  Str.rstrip_space (String c s) =
  match Str.rstrip_space s with
  | EmptyString => if Ascii.eqb c " " then EmptyString else String c EmptyString
  | r => String c r
  end.
Proof. reflexivity. Qed.

Lemma lstrip_space_no_leading (s : string) :
  Str.startswith (Str.lstrip_space s) " " = false.
Proof.
  induction s as [|c s IH]; [done|]. rewrite lstrip_space_cons.
  destruct (Ascii.eqb_spec c " ") as [->|Hne]; [done|].
  apply not_true_is_false. rewrite startswith_space.
  intros [r Hr]. congruence.
Qed.

Lemma rstrip_space_spec (s : string) :
  ∃ m, s = Str.rstrip_space s +:+ spaces m.
Proof.
  induction s as [|c s [m IH]]; simpl.
  - by exists 0.
  - destruct (Str.rstrip_space s) as [|d r].
    + rewrite str_app_nil_l in IH.
      destruct (Ascii.eqb_spec c " ") as [->|Hne].
      * exists (S m). rewrite str_app_nil_l. simpl. by rewrite IH.
      * exists m. by rewrite str_app_cons, str_app_nil_l, IH.
    + exists m. by rewrite str_app_cons, <- IH.
Qed.

Lemma rstrip_space_not_suffix (s l : string) :
  Str.rstrip_space s ≠ l +:+ " ".
Proof.
  revert l. induction s as [|c s IH]; intros l; simpl.
  - destruct l; [done | by rewrite str_app_cons].
  - destruct (Str.rstrip_space s) as [|d r].
    + destruct (Ascii.eqb_spec c " ") as [->|Hne].
      * destruct l; [done | by rewrite str_app_cons].
      * destruct l as [|c' l]; [rewrite str_app_nil_l; congruence|].
        rewrite str_app_cons. destruct l; [done | by rewrite str_app_cons].
    + destruct l as [|c' l]; [by rewrite str_app_nil_l|].
      rewrite str_app_cons. intros [= _ Heq]. by apply (IH l).
Qed.

Lemma rstrip_space_no_trailing (s : string) :
  Str.endswith (Str.rstrip_space s) " " = false.
Proof.
  apply not_true_is_false. rewrite endswith_spec.
  intros [l Hl]. by apply (rstrip_space_not_suffix s l).
Qed.

Lemma rstrip_space_keeps_no_leading (s : string) :
  Str.startswith s " " = false → Str.startswith (Str.rstrip_space s) " " = false.
Proof.
  intros Hs. apply not_true_is_false. rewrite startswith_space. intros [r Hr].
  apply not_true_iff_false in Hs. apply Hs. rewrite startswith_space.
  destruct s as [|c s]; [done|]. rewrite rstrip_space_cons in Hr.
  destruct (Str.rstrip_space s).
  - destruct (Ascii.eqb_spec c " ") as [->|Hne]; [by eauto | congruence].
  - injection Hr as -> _. by eauto.
Qed.

(** C6, as the code has it: every element of a split setting is the piece
    between two commas with the spaces at both of its ends taken away,
    the leading and the trailing ones, and nothing else. *)
Theorem split_setting_strips_both_ends (value : string) (i : nat) (piece : string) :
  Str.split value "," !! i = Some piece →
  ∃ x n m,
    split_setting value !! i = Some x
    ∧ piece = spaces n +:+ x +:+ spaces m
    ∧ Str.startswith x " " = false
    ∧ Str.endswith x " " = false.
Proof.
  intros Hpiece.
  destruct (lstrip_space_spec piece) as [n Hn].
  destruct (rstrip_space_spec (Str.lstrip_space piece)) as [m Hm].
  exists (Str.strip_space piece), n, m. split_and!.
  - unfold split_setting. by rewrite list_lookup_fmap, Hpiece.
  - unfold Str.strip_space. by rewrite <- Hm.
  - apply rstrip_space_keeps_no_leading, lstrip_space_no_leading.
  - apply rstrip_space_no_trailing.
Qed.

(** C6 fails as stated: trailing spaces do not stay. *)
Lemma trailing_spaces_are_stripped :
  Str.split "a.css , b.css  " "," = ["a.css "; " b.css  "]
  ∧ split_setting "a.css , b.css  " = ["a.css"; "b.css"]
  ∧ split_setting "a.css , b.css  "
    ≠ map Str.lstrip_space (Str.split "a.css , b.css  " ",").
Proof. split_and!; [reflexivity | reflexivity | by vm_compute]. Qed.

End Strip.

(** ** The name of the purged file *)

Section PurgedName.

Lemma startswith_css_straddle (p : string) :
  Str.startswith (p +:+ ".css") ".css" = true →
  p = "" ∨ Str.startswith p ".css" = true.
Proof.
  rewrite !startswith_spec. intros [r Hr].
  destruct p as [|c0 p]; [by left | right].
  rewrite !str_app_cons in Hr. injection Hr as -> Hr.
  destruct p as [|c1 p]; [rewrite ?str_app_nil_l in Hr; discriminate Hr|].
  rewrite !str_app_cons in Hr. injection Hr as -> Hr.
  destruct p as [|c2 p]; [rewrite ?str_app_nil_l in Hr; discriminate Hr|].
  rewrite !str_app_cons in Hr. injection Hr as -> Hr.
  destruct p as [|c3 p]; [rewrite ?str_app_nil_l in Hr; discriminate Hr|].
  rewrite !str_app_cons in Hr. injection Hr as -> Hr.
  by exists p.
Qed.

Lemma split_aux_cons (sep : string) (cur : string) (c : ascii) (s : string) :
  Str.split_aux sep 0 cur (String c s) =
  if Str.startswith (String c s) sep
  then cur :: Str.split_aux sep (String.length sep - 1) EmptyString s
  else Str.split_aux sep 0 (cur +:+ String c EmptyString) s.
Proof. reflexivity. Qed.

Lemma contains_cons (sub : string) (c : ascii) (s : string) :
  Str.contains sub (String c s) = Str.startswith (String c s) sub || Str.contains sub s.
Proof. reflexivity. Qed.

(** Cutting at the first ".css" finds the extension when the rest of the
    name holds no ".css". *)
Lemma split_aux_first (p cur : string) :
  Str.contains ".css" p = false →
  head (Str.split_aux ".css" 0 cur (p +:+ ".css")) = Some (cur +:+ p).
Proof.
  revert cur. induction p as [|c p IH]; intros cur Hnone.
  - rewrite str_app_nil_l, str_app_nil_r. reflexivity.
  - rewrite contains_cons in Hnone. apply orb_false_elim in Hnone as [Hhere Hlater].
    rewrite str_app_cons, split_aux_cons.
    destruct (Str.startswith (String c (p +:+ ".css")) ".css") eqn:Hstart.
    + rewrite <- str_app_cons in Hstart.
      apply startswith_css_straddle in Hstart as [?|?]; congruence.
    + rewrite IH by done. by rewrite str_app_assoc, str_app_cons, str_app_nil_l.
Qed.

Lemma substring_prefix (p t : string) :
  String.substring 0 (String.length p) (p +:+ t) = p.
Proof.
  induction p as [|c p IH].
  - rewrite str_app_nil_l. by destruct t.
  - rewrite str_app_cons. simpl. by rewrite IH.
Qed.

(** For a base name whose only ".css" is its extension the code and the
    removal of the extension agree. *)
Lemma output_filename_plain (css_file p : string) :
  Path.basename css_file = p +:+ ".css" →
  Str.contains ".css" p = false →
  output_filename css_file = p +:+ "-purged.css"
  ∧ without_css_extension (Path.basename css_file) = p.
Proof.
  intros Hbase Hnone. split.
  - unfold output_filename, css_filename_prefix, Str.split.
    by rewrite Hbase, split_aux_first.
  - unfold without_css_extension. rewrite Hbase.
    assert (Str.endswith (p +:+ ".css") ".css" = true) as ->
      by (apply endswith_spec; by exists p).
    rewrite str_length_app. simpl String.length.
    replace (String.length p + 4 - 4) with (String.length p) by lia.
    apply substring_prefix.
Qed.

Example output_filename_minified :
  output_filename "static/css/bootstrap.min.css" = "bootstrap.min-purged.css"
  ∧ without_css_extension (Path.basename "static/css/bootstrap.min.css")
    = "bootstrap.min".
Proof. by apply (output_filename_plain _ "bootstrap.min"). Qed.

End PurgedName.

(** C5 at a name that holds ".css" before its extension: the code cuts the
    base name at the first ".css", where removing the extension would
    cut at the last. *)
Theorem purged_name_cut_at_first_css :
  Path.basename "static/theme.css.min.css" = "theme.css.min.css"
  ∧ output_filename "static/theme.css.min.css" = "theme-purged.css"
  ∧ without_css_extension (Path.basename "static/theme.css.min.css")
      +:+ "-purged.css"
    = "theme.css.min-purged.css"
  ∧ (∀ env glob_patterns output_dir w,
       ∃ r w',
         purge_css_file env glob_patterns "static/theme.css.min.css" output_dir w
         = (inr (r, "theme-purged.css"), w')).
Proof.
  split_and!; try reflexivity.
  intros env glob_patterns output_dir w. eexists _, _.
  by rewrite purge_css_file_run.
Qed.

(** ** The theorems at work on the concrete environment *)

Lemma stored_round_trip (chunks : list (list Byte.byte)) :
  Demo.stored_reader
    (gz_close Demo.stored_writer
       (fold_left (gz_write Demo.stored_writer) chunks (gz_open Demo.stored_writer)))
  = Some (concat chunks).
Proof.
  simpl. f_equal.
  assert (∀ acc : list Byte.byte,
            fold_left (λ st buf, st ++ buf) chunks acc = acc ++ concat chunks) as H.
  { induction chunks as [|c chunks IH]; intros acc; simpl.
    - by rewrite app_nil_r.
    - by rewrite IH, app_assoc. }
  apply H.
Defined.

Lemma scan_includes_iff_qualifying_witness :
  (∀ file, file ∈ ["views.py"] → ¬ has_suffix ".html" file)
  ∧ scan ["blog"]
      (os_walk "proj/blog" (Node ["views.py"] [("templates", Node ["post.html"] [])]))
    = scan ["blog"]
        (os_walk_subdirs "proj/blog" [("templates", Node ["post.html"] [])]).
Proof.
  assert (∀ file, file ∈ ["views.py"] → ¬ has_suffix ".html" file) as Hnone.
  { intros file Hin Hsuf. apply list_elem_of_singleton in Hin. subst file.
    apply endswith_spec in Hsuf. vm_compute in Hsuf. discriminate Hsuf. }
  split; [exact Hnone|].
  exact (proj2 (scan_includes_iff_qualifying ["blog"]) "proj/blog" ["views.py"]
           [("templates", Node ["post.html"] [])] Hnone).
Defined.

Lemma compress_iff_both_streams_empty_witness :
  ¬ (stdout (purge_result_of Demo.env [] "static/b.css" "out" Demo.world0) = ""
     ∧ stderr (purge_result_of Demo.env [] "static/b.css" "out" Demo.world0) = "")
  ∧ for_each ["static/b.css"; "static/a.css"]
      (process_css_file Demo.env [] "out") Demo.world0
    = for_each ["static/a.css"] (process_css_file Demo.env [] "out")
        (mkWorld
           (w_files (world_after_purge Demo.env [] "static/b.css" "out" Demo.world0))
           (w_trace (world_after_purge Demo.env [] "static/b.css" "out" Demo.world0)
            ++ failure_lines
                 (purge_result_of Demo.env [] "static/b.css" "out" Demo.world0))).
Proof.
  assert (¬ (stdout (purge_result_of Demo.env [] "static/b.css" "out" Demo.world0) = ""
             ∧ stderr (purge_result_of Demo.env [] "static/b.css" "out" Demo.world0)
               = "")) as Hne.
  { intros [_ Herr]. vm_compute in Herr. discriminate Herr. }
  split; [exact Hne|].
  exact (proj2 (proj2 (proj2 (compress_iff_both_streams_empty Demo.env [] "out"))
                  "static/b.css" ["static/a.css"] Demo.world0 Hne)).
Defined.

Lemma split_setting_strips_both_ends_witness :
  Str.split "a.css , b.css" "," !! 0 = Some "a.css "
  ∧ ∃ x n m,
      split_setting "a.css , b.css" !! 0 = Some x
      ∧ "a.css " = spaces n +:+ x +:+ spaces m
      ∧ Str.startswith x " " = false
      ∧ Str.endswith x " " = false.
Proof.
  split; [reflexivity|].
  apply (split_setting_strips_both_ends "a.css , b.css" 0 "a.css ").
  reflexivity.
Defined.

Lemma compress_returns_purged_path_witness :
  w_files Demo.world1 !! ("out" +:+ "/" +:+ "a-purged.css") = Some Demo.body_a
  ∧ compress_purged_file Demo.env "out" "a-purged.css" Demo.world1
    = (inr "out/a-purged.css",
       mkWorld
         (<["out/a-purged.css.gz" := [Byte.x1f; Byte.x8b; Byte.x61; Byte.x7b; Byte.x7d]]>
            (w_files Demo.world1))
         [EvCompress "out" "a-purged.css"])
  ∧ "out/a-purged.css" ≠ "out/a-purged.css.gz".
Proof.
  split; [reflexivity|].
  apply (compress_returns_purged_path Demo.env "out" "a-purged.css" Demo.world1
           Demo.body_a).
  reflexivity.
Defined.

Lemma gzip_round_trip_witness :
  w_files Demo.world1 !! ("out" +:+ "/" +:+ "a-purged.css") = Some Demo.body_a
  ∧ ∃ w' compressed,
      compress_purged_file Demo.env "out" "a-purged.css" Demo.world1
        = (inr ("out" +:+ "/" +:+ "a-purged.css"), w')
      ∧ w_files w' !! (("out" +:+ "/" +:+ "a-purged.css") +:+ ".gz") = Some compressed
      ∧ Demo.stored_reader compressed = Some Demo.body_a
      ∧ w_files w' !! ("out" +:+ "/" +:+ "a-purged.css") = Some Demo.body_a.
Proof.
  split; [reflexivity|].
  apply (gzip_round_trip Demo.env Demo.stored_reader stored_round_trip
           "out" "a-purged.css" Demo.world1 Demo.body_a).
  reflexivity.
Defined.

Lemma purge_missing_source_still_runs_witness :
  w_files Demo.world0 !! "static/b.css" = None
  ∧ purge_css_file Demo.env ["proj/shop/*.html"] "static/b.css" "out" Demo.world0
    = (inr (mkCompletedProcess
              "bash -c 'source $HOME/.nvm/nvm.sh && npx purgecss --css static/b.css --content proj/shop/*.html --output out/b-purged.css'"
              0 "" "Error: no such file",
            "b-purged.css"),
       mkWorld (w_files Demo.world0)
         [EvPrint "Error: CSS File static/b.css does not exist. Please check the file paths.";
          EvRun "bash -c 'source $HOME/.nvm/nvm.sh && npx purgecss --css static/b.css --content proj/shop/*.html --output out/b-purged.css'"]).
Proof.
  split; [reflexivity|].
  apply (purge_missing_source_still_runs Demo.env ["proj/shop/*.html"]
           "static/b.css" "out" Demo.world0).
  reflexivity.
Defined.

(** * Further properties of the program *)

(** ** One turn of the loop over the CSS files *)

Section Turn.

Context (env : Env).

Lemma report_success_present (output_dir : string) (r : CompletedProcess)
    (name : string) (w : World) (content : list Byte.byte) :
  stdout r = "" → stderr r = "" →
  w_files w !! (output_dir +:+ "/" +:+ name) = Some content →
  report_and_compress env output_dir r name w =
  (inr tt,
   mkWorld
     (<[(output_dir +:+ "/" +:+ name) +:+ ".gz" := gzip_of env content]> (w_files w))
     (w_trace w ++ success_lines output_dir name)).
Proof.
  intros Hout Herr Hfile. unfold report_and_compress.
  rewrite Hout, Herr, String.eqb_refl. cbn [andb].
  rewrite !bind_print, bind_run.
  erewrite compress_purged_file_present by done.
  unfold print, emit, success_lines, gzip_of. cbn [w_trace w_files].
  by rewrite <- !app_assoc.
Qed.

Lemma report_success_absent (output_dir : string) (r : CompletedProcess)
    (name : string) (w : World) :
  stdout r = "" → stderr r = "" →
  w_files w !! (output_dir +:+ "/" +:+ name) = None →
  report_and_compress env output_dir r name w =
  (inl (FileNotFoundError
          ("[Errno 2] No such file or directory: '"
           +:+ (output_dir +:+ "/" +:+ name) +:+ "'")),
   mkWorld (w_files w) (w_trace w ++ aborted_lines output_dir name)).
Proof.
  intros Hout Herr Hfile. unfold report_and_compress.
  rewrite Hout, Herr, String.eqb_refl. cbn [andb].
  rewrite !bind_print, bind_run.
  erewrite compress_purged_file_absent by done.
  unfold aborted_lines. cbn [w_trace w_files].
  by rewrite <- !app_assoc.
Qed.

Lemma for_each_cons {A} (x : A) (rest : list A) (body : A → M unit) (w : World) :
  for_each (x :: rest) body w =
  match body x w with
  | (inl e, w') => (inl e, w')
  | (inr _, w') => for_each rest body w'
  end.
Proof. reflexivity. Qed.

(** X1: after a silent purge run that left the purged file in place, the
    turn for a CSS file ends normally, the ".gz" file beside the purged
    file holds its compressed bytes, and the last line printed, "Compressed
    file saved as:", names the purged file, not the ".gz" file. *)
Theorem process_css_file_success (glob_patterns : list string)
    (output_dir css_file : string) (w : World) (content : list Byte.byte) :
  let r := purge_result_of env glob_patterns css_file output_dir w in
  let w1 := world_after_purge env glob_patterns css_file output_dir w in
  let dest := output_dir +:+ "/" +:+ output_filename css_file in
  stdout r = "" → stderr r = "" →
  w_files w1 !! dest = Some content →
  process_css_file env glob_patterns output_dir css_file w =
  (inr tt,
   mkWorld (<[dest +:+ ".gz" := gzip_of env content]> (w_files w1))
     (w_trace w1 ++
        [EvPrint "PurgeCSS command completed successfully.";
         EvPrint ("Purged CSS file saved to: " +:+ output_filename css_file);
         EvCompress output_dir (output_filename css_file);
         EvPrint ("Compressed file saved as: " +:+ dest)])).
Proof.
  intros r w1 dest Hout Herr Hfile.
  rewrite process_css_file_unfold.
  by apply report_success_present.
Qed.


(** X3: [compress_purged_file] changes no file but the ".gz" file, whether
    it succeeds or raises. *)
Theorem compress_touches_only_gz (output_dir purged_file : string) (w : World)
    (path : string) :
  path ≠ (output_dir +:+ "/" +:+ purged_file) +:+ ".gz" →
  w_files (compress_purged_file env output_dir purged_file w).2 !! path
  = w_files w !! path.
Proof.
  intros Hne.
  destruct (w_files w !! (output_dir +:+ "/" +:+ purged_file)) as [content|] eqn:Hfile.
  - erewrite compress_purged_file_present by done. simpl.
    by rewrite lookup_insert_ne.
  - by erewrite compress_purged_file_absent.
Qed.



End Turn.

(** ** The whole loop over the CSS files *)

Section Loop.

Context (env : Env) (glob_patterns : list string) (output_dir : string).

#[local] Abbreviation body := (process_css_file env glob_patterns output_dir).
#[local] Abbreviation cmd := (command_for env glob_patterns output_dir).
#[local] Abbreviation dest css_file := (output_dir +:+ "/" +:+ output_filename css_file).

(** The three ways a turn can go. *)
Lemma process_css_file_cases (css_file : string) (w : World) :
  let r := purge_result_of env glob_patterns css_file output_dir w in
  let w1 := world_after_purge env glob_patterns css_file output_dir w in
  (¬ (stdout r = "" ∧ stderr r = "")
   ∧ body css_file w
     = (inr tt, mkWorld (w_files w1) (w_trace w1 ++ failure_lines r)))
  ∨ (stdout r = "" ∧ stderr r = ""
     ∧ ∃ content,
         w_files w1 !! dest css_file = Some content
         ∧ body css_file w
           = (inr tt,
              mkWorld (<[dest css_file +:+ ".gz" := gzip_of env content]> (w_files w1))
                (w_trace w1 ++ success_lines output_dir (output_filename css_file))))
  ∨ (stdout r = "" ∧ stderr r = ""
     ∧ w_files w1 !! dest css_file = None
     ∧ body css_file w
       = (inl (FileNotFoundError
                 ("[Errno 2] No such file or directory: '" +:+ dest css_file +:+ "'")),
          mkWorld (w_files w1)
            (w_trace w1 ++ aborted_lines output_dir (output_filename css_file)))).
Proof.
  intros r w1. rewrite process_css_file_unfold. fold r w1.
  destruct (decide (stdout r = "" ∧ stderr r = "")) as [[Hout Herr]|Hne].
  - right. destruct (w_files w1 !! dest css_file) as [content|] eqn:Hfile.
    + left. split_and!; [done..|]. exists content. split; [done|].
      by apply report_success_present.
    + right. split_and!; [done..|]. by apply report_success_absent.
  - left. split; [done|]. by apply report_streams_not_empty.
Qed.

Lemma files_after_purge (css_file : string) (w : World) :
  w_files (world_after_purge env glob_patterns css_file output_dir w)
  = (subprocess_run env (cmd css_file) (w_files w)).2.
Proof. reflexivity. Qed.

Lemma result_of_purge (css_file : string) (w : World) :
  purge_result_of env glob_patterns css_file output_dir w
  = (subprocess_run env (cmd css_file) (w_files w)).1.
Proof. reflexivity. Qed.

Lemma runs_of_app (evs1 evs2 : list event) :
  runs_of (evs1 ++ evs2) = runs_of evs1 ++ runs_of evs2.
Proof. apply omap_app. Qed.

(** A turn adds events to the trace, among them exactly one [EvRun]; it
    hands the files to the command and afterwards writes at most the ".gz"
    file. *)
Lemma process_css_file_shape (css_file : string) (w : World) :
  ∃ evs,
    w_trace (body css_file w).2 = w_trace w ++ evs
    ∧ runs_of evs = [cmd css_file]
    ∧ ((body css_file w).1 = inr tt ∨ ∃ e, (body css_file w).1 = inl e)
    ∧ (w_files (body css_file w).2
         = (subprocess_run env (cmd css_file) (w_files w)).2
       ∨ ∃ data,
           w_files (body css_file w).2
           = <[dest css_file +:+ ".gz" := data]>
               (subprocess_run env (cmd css_file) (w_files w)).2).
Proof.
  destruct (process_css_file_cases css_file w)
    as [(_ & ->)|[(_ & _ & content & _ & ->)|(_ & _ & _ & ->)]];
    unfold world_after_purge; cbn [fst snd w_trace w_files];
    rewrite <- app_assoc; eexists; (split_and!; [done|done|eauto..]).
Qed.

(** X6: the loop runs one command per CSS file, in the order of the list,
    each for its own CSS file and all with the same glob patterns and
    output directory.  It may stop early on an exception; then the
    commands run are those of the CSS files up to the one that failed. *)
Theorem one_command_per_css_file (css_files : list string) (w : World) :
  runs_of (new_events (for_each css_files body) w) `prefix_of` map cmd css_files
  ∧ ((for_each css_files body w).1 = inr tt →
     runs_of (new_events (for_each css_files body) w) = map cmd css_files).
Proof.
  assert (∃ evs, w_trace (for_each css_files body w).2 = w_trace w ++ evs
                 ∧ runs_of evs `prefix_of` map cmd css_files
                 ∧ ((for_each css_files body w).1 = inr tt →
                    runs_of evs = map cmd css_files)) as (evs & Htrace & Hpre & Hall).
  { revert w. induction css_files as [|css_file rest IH]; intros w.
    - exists []. by rewrite app_nil_r.
    - rewrite for_each_cons.
      destruct (process_css_file_shape css_file w) as (evs1 & Ht1 & Hr1 & Hres & _).
      destruct (body css_file w) as [[e|[]] w2] eqn:Hbody; cbn [fst snd] in *.
      + exists evs1. rewrite Hr1. split_and!; [done| |done].
        by apply prefix_cons, prefix_nil.
      + destruct (IH w2) as (evs2 & Ht2 & Hpre2 & Hall2).
        exists (evs1 ++ evs2). rewrite Ht2, Ht1, runs_of_app, Hr1, <- app_assoc.
        split_and!; [done| |].
        * by apply prefix_cons.
        * intros Hok. cbn. f_equal. by apply Hall2. }
  unfold new_events. rewrite Htrace, drop_app_length. done.
Qed.


(** While the commands keep the files they find, so does the loop. *)
Lemma for_each_keeps_files (css_files : list string) (w : World) (path : string) :
  (∀ css_file files p, css_file ∈ css_files →
     is_Some (files !! p) →
     is_Some ((subprocess_run env (cmd css_file) files).2 !! p)) →
  is_Some (w_files w !! path) →
  is_Some (w_files (for_each css_files body w).2 !! path).
Proof.
  revert w. induction css_files as [|css_file rest IH]; intros w Hkeep Hpath.
  - done.
  - rewrite for_each_cons.
    assert (is_Some (w_files (body css_file w).2 !! path)) as Hstep.
    { destruct (process_css_file_shape css_file w)
        as (_ & _ & _ & _ & [->|[data ->]]).
      - apply Hkeep; [by left | done].
      - apply lookup_insert_is_Some'. right. apply Hkeep; [by left | done]. }
    destruct (body css_file w) as [[e|[]] w2]; [done|].
    apply IH; [|done].
    intros c fs p Hc. apply Hkeep. by right.
Qed.

(** X8: apart from what the commands do, the loop writes ".gz" files only:
    a file whose name does not end in ".gz" and that the commands leave
    alone ends up as it started, however the loop ends. *)
Theorem loop_writes_only_gz (css_files : list string) (w : World) (path : string) :
  ¬ has_suffix ".gz" path →
  (∀ css_file files, css_file ∈ css_files →
     (subprocess_run env (cmd css_file) files).2 !! path = files !! path) →
  w_files (for_each css_files body w).2 !! path = w_files w !! path.
Proof.
  intros Hgz. revert w.
  induction css_files as [|css_file rest IH]; intros w Hkeep; [done|].
  rewrite for_each_cons.
  assert (w_files (body css_file w).2 !! path = w_files w !! path) as Hstep.
  { destruct (process_css_file_shape css_file w)
      as (_ & _ & _ & _ & [->|[data ->]]).
    - apply Hkeep. by left.
    - rewrite lookup_insert_ne; [apply Hkeep; by left|].
      intros <-. apply Hgz. by eexists. }
  destruct (body css_file w) as [[e|[]] w2]; [done|].
  cbn [snd] in Hstep. rewrite <- Hstep. apply IH.
  intros c fs Hc. apply Hkeep. by right.
Qed.

(** X9: when the purge run of every CSS file of the list is silent, leaves
    its purged file in the output directory and removes nothing, the loop
    returns normally and afterwards, for every CSS file of the list, the
    purged file and its ".gz" companion are both there. *)
Theorem loop_produces_purged_and_gz (css_files : list string) (w : World) :
  (∀ css_file, css_file ∈ css_files →
     purge_succeeds_for env glob_patterns output_dir css_file) →
  (for_each css_files body w).1 = inr tt
  ∧ ∀ css_file, css_file ∈ css_files →
      is_Some (w_files (for_each css_files body w).2 !! dest css_file)
      ∧ is_Some (w_files (for_each css_files body w).2
                   !! (dest css_file +:+ ".gz")).
Proof.
  revert w. induction css_files as [|css_file rest IH]; intros w Hgood.
  - split; [done|]. intros c Hc. by apply elem_of_nil in Hc.
  - rewrite for_each_cons.
    destruct (Hgood css_file (list_elem_of_here _ _) (w_files w))
      as (Hout & Herr & Hdest & _).
    destruct (process_css_file_cases css_file w)
      as [(Hne & _)|[(_ & _ & content & Hfile & ->)|(_ & _ & Hnone & _)]].
    + by destruct Hne.
    + assert (∀ c, c ∈ rest → purge_succeeds_for env glob_patterns output_dir c)
        as Hrest by (intros c Hc; apply Hgood; by right).
      match goal with |- context [for_each rest _ ?w2] => set (w2' := w2) end.
      destruct (IH w2' Hrest) as [Hok Hfiles]. split; [done|].
      intros c [->|Hc]%elem_of_cons; [|by apply Hfiles].
      assert (∀ c files p, c ∈ rest → is_Some (files !! p) →
                is_Some ((subprocess_run env (cmd c) files).2 !! p)) as Hkeep.
      { intros c' fs p Hc' Hp. by apply (Hrest c' Hc' fs). }
      split; apply for_each_keeps_files; try done; subst w2'; cbn [w_files].
      * apply lookup_insert_is_Some'. right. by rewrite Hfile.
      * apply lookup_insert_is_Some'. by left.
    + rewrite files_after_purge in Hnone. rewrite Hnone in Hdest.
      by destruct Hdest.
Qed.

End Loop.

(** ** Loading the configuration, and what [main] makes of it *)

Section Loading.

Context (env : Env).

Lemma check_config_true_iff (c : ConfigParser) :
  check_config env c = inr true
  ↔ ∀ key, key ∈ options_required_keys → key_present env c key.
Proof.
  rewrite <- Forall_forall, <- check_keys_true. unfold check_config.
  destruct (check_keys env c options_required_keys) as [e|b]; split; congruence.
Qed.

Lemma check_keys_first_failure (c : ConfigParser) (pre : list string)
    (key : string) (post : list string) :
  Forall (key_present env c) pre →
  has_option c "SETTINGS" key = false ∨ get env c "SETTINGS" key = inr "" →
  check_keys env c (pre ++ key :: post)
  = inl (InvalidConfigFile ("Missing or empty key " +:+ key +:+ " in [OPTIONS]")).
Proof.
  intros Hpre Hkey. induction Hpre as [|k pre (Hopt & v & Hget & Hv) _ IH]; simpl.
  - destruct (has_option c "SETTINGS" key); simpl; [|done].
    destruct Hkey as [? | ->]; done.
  - rewrite Hopt, Hget. simpl.
    by destruct (String.eqb_spec v "").
Qed.

Lemma check_keys_first_exception (c : ConfigParser) (pre : list string)
    (key : string) (post : list string) (e : exn) :
  Forall (key_present env c) pre →
  has_option c "SETTINGS" key = true →
  get env c "SETTINGS" key = inl e →
  check_keys env c (pre ++ key :: post) = inl e.
Proof.
  intros Hpre Hopt Hget. induction Hpre as [|k pre (Hoptk & v & Hgetk & Hv) _ IH]; simpl.
  - by rewrite Hopt, Hget.
  - rewrite Hoptk, Hgetk. simpl.
    by destruct (String.eqb_spec v "").
Qed.

Lemma load_and_check_config_some_iff (filename : string) (c : ConfigParser) :
  load_and_check_config env filename = inr (Some c)
  ↔ read_file env filename = inr c
    ∧ ∀ key, key ∈ options_required_keys → key_present env c key.
Proof.
  rewrite <- check_config_true_iff. unfold load_and_check_config.
  destruct (read_file env filename) as [[m|m|cls m]|c'].
  1-3: split; [done | by intros [? _]].
  pose proof (check_config_not_false env c') as Hnf.
  destruct (check_config env c') as [e|[|]] eqn:Hcheck.
  - split; [done | intros [Heq ?]; injection Heq as ->; congruence].
  - split.
    + intros Heq. by injection Heq as ->.
    + intros [Heq _]. by injection Heq as ->.
  - done.
Qed.

(** X10: the loader returns a configuration exactly when the file could
    be read and parsed and each of the four required keys is an option of
    SETTINGS with a non-empty value; what it returns is then the parsed
    configuration itself. *)
Theorem loader_success_iff (filename : string) (c : ConfigParser) :
  load_and_check_config env filename = inr (Some c)
  ↔ read_file env filename = inr c
    ∧ ∀ key, key ∈ options_required_keys → key_present env c key.
Proof.
  split.
  - intros Hload. by apply load_and_check_config_some_iff.
  - intros [Hread Hkeys]. by apply load_and_check_config_some_iff.
Qed.

(** X11: the loader reports the first required key, in the order
    input_css_files, output_directory, django_directory, django_apps,
    that is no option of SETTINGS or has an empty value.  The message names
    the key, wrapped twice, and speaks of a section [OPTIONS]. *)
Theorem loader_reports_first_missing_key (filename : string) (c : ConfigParser)
    (pre : list string) (key : string) (post : list string) :
  read_file env filename = inr c →
  options_required_keys = pre ++ key :: post →
  (∀ k, k ∈ pre → key_present env c k) →
  has_option c "SETTINGS" key = false ∨ get env c "SETTINGS" key = inr "" →
  load_and_check_config env filename
  = inl (InvalidConfigFile
           ("Error while checking config: Missing or empty key "
            +:+ key +:+ " in [OPTIONS]")).
Proof.
  intros Hread Hkeys Hpre Hkey. unfold load_and_check_config, check_config.
  rewrite Hread, Hkeys.
  rewrite (check_keys_first_failure c pre key post);
    [done | by apply Forall_forall | done].
Qed.

(** X12: an exception raised while the value of a required key is read
    (an interpolation error, say) does not leave the loader as it is: it
    comes out as [InvalidConfigFile] carrying the text of the exception. *)
Theorem loader_wraps_get_exception (filename : string) (c : ConfigParser)
    (pre : list string) (key : string) (post : list string) (e : exn) :
  read_file env filename = inr c →
  options_required_keys = pre ++ key :: post →
  (∀ k, k ∈ pre → key_present env c k) →
  has_option c "SETTINGS" key = true →
  get env c "SETTINGS" key = inl e →
  load_and_check_config env filename
  = inl (InvalidConfigFile ("Error while checking config: " +:+ str_exn e)).
Proof.
  intros Hread Hkeys Hpre Hopt Hget. unfold load_and_check_config, check_config.
  rewrite Hread, Hkeys.
  rewrite (check_keys_first_exception c pre key post e);
    [done | by apply Forall_forall | done | done].
Qed.

(** X13: a configuration without a SETTINGS section is rejected for its
    first key, input_css_files, even when the DEFAULT section holds all
    four keys. *)
Theorem loader_needs_settings_section (filename : string) (c : ConfigParser) :
  read_file env filename = inr c →
  cp_sections c !! "SETTINGS" = None →
  load_and_check_config env filename
  = inl (InvalidConfigFile
           "Error while checking config: Missing or empty key input_css_files in [OPTIONS]").
Proof.
  intros Hread Hnone. unfold load_and_check_config, check_config.
  rewrite Hread.
  assert (check_keys env c options_required_keys
          = inl (InvalidConfigFile
                   ("Missing or empty key " +:+ "input_css_files" +:+ " in [OPTIONS]")))
    as ->; [|done].
  apply (check_keys_first_failure c [] "input_css_files"
           ["output_directory"; "django_directory"; "django_apps"]); [constructor|].
  left. unfold has_option.
  change (String.eqb "SETTINGS" "" || String.eqb "SETTINGS" default_section)
    with false.
  by rewrite Hnone.
Qed.

(** X14: [main] goes one of two ways.  Either the loader raises and
    [main] ends with that exception, nothing printed and nothing run; or
    the four settings are read again, all non-empty, and [main] is the
    loop over the split CSS list with the patterns of the scan.  The
    branch that prints "Config file set incorrectly." is never taken. *)
Theorem main_outcomes (w : World) :
  (∃ msg,
     load_and_check_config env "settings.cfg" = inl (InvalidConfigFile msg)
     ∧ main env w = (inl (InvalidConfigFile msg), w))
  ∨ (∃ c dir css out apps,
       load_and_check_config env "settings.cfg" = inr (Some c)
       ∧ get env c "SETTINGS" "django_directory" = inr dir ∧ dir ≠ ""
       ∧ get env c "SETTINGS" "input_css_files" = inr css ∧ css ≠ ""
       ∧ get env c "SETTINGS" "output_directory" = inr out ∧ out ≠ ""
       ∧ get env c "SETTINGS" "django_apps" = inr apps ∧ apps ≠ ""
       ∧ main env w
         = for_each (split_setting css)
             (process_css_file env
                (scan (split_setting apps) (walk_from (fs_tree env) dir)) out) w).
Proof.
  destruct (load_and_check_config_outcomes env "settings.cfg") as [[c Hc]|[msg Hmsg]].
  - right. pose proof Hc as Hload. apply load_and_check_config_some_iff in Hc as [_ Hkeys].
    destruct (Hkeys "django_directory") as (_ & dir & Hdir & ?);
      [unfold options_required_keys; set_solver|].
    destruct (Hkeys "input_css_files") as (_ & css & Hcss & ?);
      [unfold options_required_keys; set_solver|].
    destruct (Hkeys "output_directory") as (_ & out & Hout & ?);
      [unfold options_required_keys; set_solver|].
    destruct (Hkeys "django_apps") as (_ & apps & Happs & ?);
      [unfold options_required_keys; set_solver|].
    exists c, dir, css, out, apps. split_and!; try done.
    by apply (main_runs_loop env c).
  - left. exists msg. split; [done|]. by apply main_propagates_loader_failure.
Qed.

End Loading.

(** ** The split settings and the scan *)

Section Fragments.

Lemma startswith_comma (c : ascii) (s : string) :
  Str.startswith (String c s) "," = Ascii.eqb "," c.
Proof.
  change (Str.startswith (String c s) ",")
    with (if Ascii.eqb "," c then Str.startswith s "" else false).
  by destruct (Ascii.eqb "," c).
Qed.

Lemma split_aux_comma_length (s cur : string) :
  length (Str.split_aux "," 0 cur s) = S (count_char "," s).
Proof.
  revert cur. induction s as [|c s IH]; intros cur; [done|].
  rewrite split_aux_cons, startswith_comma. cbn [count_char].
  destruct (Ascii.eqb "," c).
  - change (String.length "," - 1) with 0. cbn [length]. by rewrite IH.
  - by rewrite IH.
Qed.

(** X15: a setting with n commas splits into exactly n + 1 elements: no
    piece is dropped, an empty or blank piece gives an empty element, and
    the list is never empty. *)
Theorem split_setting_length (value : string) :
  length (split_setting value) = S (count_char "," value).
Proof.
  unfold split_setting, Str.split. by rewrite length_map, split_aux_comma_length.
Qed.

Lemma split_aux_trailing_comma (s cur : string) :
  ∃ l, Str.split_aux "," 0 cur (s +:+ ",") = l ++ [""].
Proof.
  revert cur. induction s as [|c s IH]; intros cur.
  - by exists [cur].
  - rewrite str_app_cons, split_aux_cons, startswith_comma.
    destruct (Ascii.eqb "," c).
    + change (String.length "," - 1) with 0.
      destruct (IH "") as [l ->]. by exists (cur :: l).
    + apply IH.
Qed.

(** X16: a setting that ends in a comma splits into a list whose last
    element is the empty string. *)
Theorem split_setting_trailing_comma (value : string) :
  last (split_setting (value +:+ ",")) = Some "".
Proof.
  unfold split_setting, Str.split.
  destruct (split_aux_trailing_comma value "") as [l ->].
  rewrite map_app. cbn [map]. apply last_snoc.
Qed.

Lemma contains_empty (s : string) : Str.contains "" s = true.
Proof. by destruct s. Qed.

Lemma filter_none {A} (f : A → bool) (l : list A) :
  Forall (λ x, f x = false) l → List.filter f l = [].
Proof.
  induction 1 as [|x l Hx _ IH]; simpl; [done|]. by rewrite Hx.
Qed.

(** X17: an empty fragment among the app names switches the fragment test
    off: the empty string occurs in every path, so the scan takes every
    directory that has an ".html" file of its own and no "around" in its
    path. *)
Theorem empty_fragment_matches_every_dir (django_apps : list string)
    (walk : list WalkEntry) :
  "" ∈ django_apps →
  scan django_apps walk
  = map (λ e, we_root e +:+ "/*.html") (List.filter has_own_html_outside_around walk).
Proof.
  intros Hempty. rewrite scan_filter. unfold glob_of. f_equal.
  apply filter_ext. intros e. unfold is_qualifying, has_own_html_outside_around.
  assert (existsb (λ app, Str.contains app (we_root e)) django_apps = true) as ->;
    [|done].
  apply existsb_exists. exists "". split; [by apply list_elem_of_In|].
  apply contains_empty.
Qed.

Lemma join_has_prefix (top name : string) :
  Str.contains "/" name = false → ∃ r, Path.join top name = top +:+ r.
Proof.
  intros Hname. unfold Path.join.
  assert (Str.startswith name "/" = false) as ->.
  { destruct name as [|c name]; [done|].
    rewrite contains_cons in Hname. by apply orb_false_elim in Hname as [? _]. }
  destruct (String.eqb top "" || Str.endswith top "/"); eauto.
Qed.

Lemma tree_names_ok_cons (files : list string) (name : string) (sub : Tree)
    (ds : list (string * Tree)) :
  tree_names_ok (Node files ((name, sub) :: ds))
  = negb (Str.contains "/" name) && tree_names_ok sub && tree_names_ok (Node files ds).
Proof. reflexivity. Qed.

(** Every directory a walk visits lies under the top directory: its path
    starts with the path the walk was given. *)
Lemma os_walk_roots (t : Tree) :
  ∀ top, tree_names_ok t = true →
         Forall (λ e, ∃ r, we_root e = top +:+ r) (os_walk top t).
Proof.
  induction t as [files subdirs IH] using Tree_ind_subdirs.
  intros top Hok. rewrite os_walk_unfold. constructor.
  - exists "". by rewrite str_app_nil_r.
  - clear -IH Hok. unfold os_walk_subdirs.
    induction subdirs as [|[name sub] ds IHds]; [constructor|].
    rewrite tree_names_ok_cons in Hok.
    apply andb_prop in Hok as [[Hname Hsub]%andb_prop Hds].
    apply negb_true_iff in Hname.
    apply Forall_cons in IH as [IHsub IHrest]. cbn [snd fst] in *.
    cbn [flat_map fst snd]. apply Forall_app. split; [|by apply IHds].
    destruct (join_has_prefix top name Hname) as [r Hr].
    eapply Forall_impl; [by apply IHsub|].
    intros e [r' Hr']. exists (r +:+ r'). by rewrite Hr', Hr, str_app_assoc.
Qed.

Lemma is_substring_prefix (sub top r : string) :
  is_substring sub top → is_substring sub (top +:+ r).
Proof.
  intros (l & r0 & ->). exists l, (r0 +:+ r). by rewrite !str_app_assoc.
Qed.

(** X18: when the path of the project directory itself contains "around",
    every directory of the walk is excluded and the scan finds no pattern
    at all, whatever the tree holds. *)
Theorem scan_empty_when_top_has_around (django_apps : list string)
    (top : string) (t : Tree) :
  tree_names_ok t = true →
  is_substring "around" top →
  scan django_apps (os_walk top t) = [].
Proof.
  intros Hok Haround. rewrite scan_filter.
  rewrite filter_none; [done|].
  eapply Forall_impl; [by apply os_walk_roots|].
  intros e [r Hr]. unfold is_qualifying.
  assert (Str.contains "around" (we_root e) = true) as ->.
  { apply contains_spec. rewrite Hr. by apply is_substring_prefix. }
  cbn [negb]. by rewrite andb_false_r.
Qed.

(** X19: when the path of the project directory itself contains one of the
    fragments, the fragment test holds for every directory of the walk:
    the scan takes every directory that has an ".html" file of its own and
    no "around" in its path, in whichever app it lies. *)
Theorem scan_unfiltered_when_top_has_fragment (django_apps : list string)
    (app top : string) (t : Tree) :
  tree_names_ok t = true →
  app ∈ django_apps →
  is_substring app top →
  scan django_apps (os_walk top t)
  = map (λ e, we_root e +:+ "/*.html")
        (List.filter has_own_html_outside_around (os_walk top t)).
Proof.
  intros Hok Happ Htop. rewrite scan_filter. unfold glob_of. f_equal.
  apply filter_ext_in. intros e He.
  pose proof (os_walk_roots t top Hok) as Hroots.
  rewrite Forall_forall in Hroots.
  destruct (Hroots e) as [r Hr]; [by apply list_elem_of_In|].
  unfold is_qualifying, has_own_html_outside_around.
  assert (existsb (λ a, Str.contains a (we_root e)) django_apps = true) as ->;
    [|done].
  apply existsb_exists. exists app. split; [by apply list_elem_of_In|].
  apply contains_spec. rewrite Hr. by apply is_substring_prefix.
Qed.

End Fragments.

(** ** Where the purged file goes *)

Section Destination.

Lemma startswith_single (a c : ascii) (s : string) :
  Str.startswith (String c s) (String a "") = Ascii.eqb a c.
Proof.
  change (Str.startswith (String c s) (String a ""))
    with (if Ascii.eqb a c then Str.startswith s "" else false).
  by destruct (Ascii.eqb a c).
Qed.

Lemma contains_slash_cons (c : ascii) (s : string) :
  Str.contains "/" (String c s) = Ascii.eqb "/" c || Str.contains "/" s.
Proof. by rewrite contains_cons, startswith_single. Qed.

Lemma contains_slash_app (s t : string) :
  Str.contains "/" (s +:+ t) = Str.contains "/" s || Str.contains "/" t.
Proof.
  induction s as [|c s IH]; [done|].
  by rewrite str_app_cons, !contains_slash_cons, IH, orb_assoc.
Qed.

Lemma basename_aux_cons (cur : string) (c : ascii) (p : string) :
  Path.basename_aux cur (String c p) =
  if Ascii.eqb c "/" then Path.basename_aux "" p
  else Path.basename_aux (cur +:+ String c "") p.
Proof. reflexivity. Qed.

Lemma eqb_slash_sym (c : ascii) : Ascii.eqb "/" c = Ascii.eqb c "/".
Proof. by destruct (Ascii.eqb_spec "/" c), (Ascii.eqb_spec c "/"). Qed.

Lemma basename_aux_no_slash (p cur : string) :
  Str.contains "/" cur = false → Str.contains "/" (Path.basename_aux cur p) = false.
Proof.
  revert cur. induction p as [|c p IH]; intros cur Hcur; [done|].
  rewrite basename_aux_cons. destruct (Ascii.eqb c "/") eqn:Hc.
  - by apply IH.
  - apply IH. by rewrite contains_slash_app, Hcur, contains_slash_cons, eqb_slash_sym, Hc.
Qed.

Lemma split_aux_head_prefix (sep s cur : string) :
  ∃ h r, head (Str.split_aux sep 0 cur s) = Some h ∧ cur +:+ s = h +:+ r.
Proof.
  revert cur. induction s as [|c s IH]; intros cur.
  - by exists cur, "".
  - rewrite split_aux_cons. destruct (Str.startswith (String c s) sep).
    + by exists cur, (String c s).
    + destruct (IH (cur +:+ String c "")) as (h & r & Hh & Heq).
      exists h, r. split; [done|].
      by rewrite <- Heq, str_app_assoc, str_app_cons, str_app_nil_l.
Qed.

(** X20: the name of the purged file never holds a slash: whatever the
    CSS path, the purged file and its ".gz" companion are put directly
    into the output directory. *)
Theorem output_filename_no_slash (css_file : string) :
  Str.contains "/" (output_filename css_file) = false.
Proof.
  unfold output_filename, css_filename_prefix, Str.split.
  destruct (split_aux_head_prefix ".css" (Path.basename css_file) "")
    as (h & r & -> & Heq).
  cbn [default from_option id]. rewrite contains_slash_app.
  assert (Str.contains "/" (h +:+ r) = false) as Hhr.
  { rewrite <- Heq, str_app_nil_l. by apply basename_aux_no_slash. }
  rewrite contains_slash_app in Hhr. apply orb_false_elim in Hhr as [-> _].
  reflexivity.
Qed.

Lemma basename_aux_plain (name cur : string) :
  Str.contains "/" name = false → Path.basename_aux cur name = cur +:+ name.
Proof.
  revert cur. induction name as [|c name IH]; intros cur Hname.
  - by rewrite str_app_nil_r.
  - rewrite contains_slash_cons, eqb_slash_sym in Hname.
    apply orb_false_elim in Hname as [Hc Hname].
    rewrite basename_aux_cons, Hc, IH by done.
    by rewrite str_app_assoc, str_app_cons, str_app_nil_l.
Qed.

Lemma basename_aux_after_slash (dir name cur : string) :
  Path.basename_aux cur (dir +:+ "/" +:+ name) = Path.basename_aux "" name.
Proof.
  revert cur. induction dir as [|c dir IH]; intros cur.
  - by rewrite str_app_nil_l, str_app_cons, str_app_nil_l, basename_aux_cons.
  - rewrite str_app_cons, basename_aux_cons. by destruct (Ascii.eqb c "/").
Qed.

Lemma basename_dir_name (dir name : string) :
  Str.contains "/" name = false → Path.basename (dir +:+ "/" +:+ name) = name.
Proof.
  intros Hname. unfold Path.basename.
  by rewrite basename_aux_after_slash, basename_aux_plain.
Qed.

(** X21: the name of the purged file depends on the file name of the CSS
    path only, not on its directory: CSS files of the same name in two
    directories get the same purged file, and the command of the second
    writes to the destination of the first. *)
Theorem same_name_same_destination (dir1 dir2 name : string) :
  Str.contains "/" name = false →
  output_filename (dir1 +:+ "/" +:+ name) = output_filename name
  ∧ output_filename (dir1 +:+ "/" +:+ name) = output_filename (dir2 +:+ "/" +:+ name).
Proof.
  intros Hname. unfold output_filename.
  by rewrite !basename_dir_name, (basename_aux_plain name "" Hname : Path.basename name = _).
Qed.

End Destination.

(** ** The further properties at work on concrete environments *)

Lemma process_css_file_success_witness :
  stdout (purge_result_of Demo.env [] "static/a.css" "out" Demo.world0) = ""
  ∧ stderr (purge_result_of Demo.env [] "static/a.css" "out" Demo.world0) = ""
  ∧ w_files (world_after_purge Demo.env [] "static/a.css" "out" Demo.world0)
      !! ("out" +:+ "/" +:+ output_filename "static/a.css") = Some Demo.body_a
  ∧ process_css_file Demo.env [] "out" "static/a.css" Demo.world0
    = (inr tt,
       mkWorld
         (<["out/a-purged.css.gz" := gzip_of Demo.env Demo.body_a]>
            (w_files (world_after_purge Demo.env [] "static/a.css" "out" Demo.world0)))
         (w_trace (world_after_purge Demo.env [] "static/a.css" "out" Demo.world0)
          ++ [EvPrint "PurgeCSS command completed successfully.";
              EvPrint "Purged CSS file saved to: a-purged.css";
              EvCompress "out" "a-purged.css";
              EvPrint "Compressed file saved as: out/a-purged.css"])).
Proof.
  split_and!; [reflexivity..|].
  apply (process_css_file_success Demo.env [] "out" "static/a.css" Demo.world0
           Demo.body_a); reflexivity.
Defined.


Lemma compress_touches_only_gz_witness :
  "static/a.css" ≠ ("out" +:+ "/" +:+ "a-purged.css") +:+ ".gz"
  ∧ w_files (compress_purged_file Demo.env "out" "a-purged.css" Demo.world1).2
      !! "static/a.css"
    = w_files Demo.world1 !! "static/a.css".
Proof.
  assert ("static/a.css" ≠ ("out" +:+ "/" +:+ "a-purged.css") +:+ ".gz") as Hne
    by discriminate.
  split; [exact Hne|].
  exact (compress_touches_only_gz Demo.env "out" "a-purged.css" Demo.world1
           "static/a.css" Hne).
Defined.




Lemma demo_runner_keeps_source (command : string)
    (files : gmap string (list Byte.byte)) :
  (Demo.runner command files).2 !! "static/a.css" = files !! "static/a.css".
Proof.
  unfold Demo.runner.
  destruct (Str.contains "--css static/a.css " command); [|reflexivity].
  apply lookup_insert_ne. discriminate.
Defined.

Lemma loop_writes_only_gz_witness :
  ¬ has_suffix ".gz" "static/a.css"
  ∧ (∀ css_file files, css_file ∈ ["static/a.css"; "static/b.css"] →
       (subprocess_run Demo.env (command_for Demo.env [] "out" css_file) files).2
         !! "static/a.css"
       = files !! "static/a.css")
  ∧ w_files (for_each ["static/a.css"; "static/b.css"]
               (process_css_file Demo.env [] "out") Demo.world0).2 !! "static/a.css"
    = w_files Demo.world0 !! "static/a.css".
Proof.
  assert (¬ has_suffix ".gz" "static/a.css") as Hgz.
  { intros H. apply endswith_spec in H. vm_compute in H. discriminate H. }
  assert (∀ css_file files, css_file ∈ ["static/a.css"; "static/b.css"] →
       (subprocess_run Demo.env (command_for Demo.env [] "out" css_file) files).2
         !! "static/a.css"
       = files !! "static/a.css") as Hkeep.
  { intros css_file files _. apply demo_runner_keeps_source. }
  split; [exact Hgz|]. split; [exact Hkeep|].
  exact (loop_writes_only_gz Demo.env [] "out" ["static/a.css"; "static/b.css"]
           Demo.world0 "static/a.css" Hgz Hkeep).
Defined.

Lemma demo_purge_succeeds :
  ∀ css_file, css_file ∈ ["static/a.css"] →
              purge_succeeds_for Demo.env [] "out" css_file.
Proof.
  intros css_file Hin. apply list_elem_of_singleton in Hin. subst css_file.
  intros files. cbv zeta.
  assert (subprocess_run Demo.env (command_for Demo.env [] "out" "static/a.css") files
          = (mkCompletedProcess (command_for Demo.env [] "out" "static/a.css") 0 "" "",
             <["out/a-purged.css" := Demo.body_a]> files)) as -> by reflexivity.
  cbn [fst snd stdout stderr]. split_and!; [reflexivity | reflexivity | |].
  - apply lookup_insert_is_Some'. left. reflexivity.
  - intros path Hpath. apply lookup_insert_is_Some'. right. exact Hpath.
Defined.

Lemma loop_produces_purged_and_gz_witness :
  (∀ css_file, css_file ∈ ["static/a.css"] →
               purge_succeeds_for Demo.env [] "out" css_file)
  ∧ (for_each ["static/a.css"] (process_css_file Demo.env [] "out") Demo.world0).1
    = inr tt
  ∧ ∀ css_file, css_file ∈ ["static/a.css"] →
      is_Some (w_files (for_each ["static/a.css"]
                          (process_css_file Demo.env [] "out") Demo.world0).2
                 !! ("out" +:+ "/" +:+ output_filename css_file))
      ∧ is_Some (w_files (for_each ["static/a.css"]
                            (process_css_file Demo.env [] "out") Demo.world0).2
                   !! (("out" +:+ "/" +:+ output_filename css_file) +:+ ".gz")).
Proof.
  split; [exact demo_purge_succeeds|].
  exact (loop_produces_purged_and_gz Demo.env [] "out" ["static/a.css"] Demo.world0
           demo_purge_succeeds).
Defined.

Lemma loader_reports_first_missing_key_witness :
  read_file Demo.env_missing_key "settings.cfg" = inr Demo.settings_without_apps
  ∧ options_required_keys
    = ["input_css_files"; "output_directory"; "django_directory"]
      ++ "django_apps" :: []
  ∧ (∀ k, k ∈ ["input_css_files"; "output_directory"; "django_directory"] →
          key_present Demo.env_missing_key Demo.settings_without_apps k)
  ∧ has_option Demo.settings_without_apps "SETTINGS" "django_apps" = false
  ∧ load_and_check_config Demo.env_missing_key "settings.cfg"
    = inl (InvalidConfigFile
             ("Error while checking config: Missing or empty key "
              +:+ "django_apps" +:+ " in [OPTIONS]")).
Proof.
  assert (∀ k, k ∈ ["input_css_files"; "output_directory"; "django_directory"] →
               key_present Demo.env_missing_key Demo.settings_without_apps k) as Hpre.
  { intros k Hk. rewrite !elem_of_cons, elem_of_nil in Hk.
    destruct Hk as [-> | [-> | [-> | []]]];
      (split; [reflexivity | eexists; split; [reflexivity | discriminate]]). }
  split_and!; [reflexivity | reflexivity | exact Hpre | reflexivity |].
  apply (loader_reports_first_missing_key Demo.env_missing_key "settings.cfg"
           Demo.settings_without_apps
           ["input_css_files"; "output_directory"; "django_directory"]
           "django_apps" []);
    [reflexivity | reflexivity | exact Hpre | left; reflexivity].
Defined.

Lemma loader_wraps_get_exception_witness :
  read_file Scenario.env_percent "settings.cfg" = inr Scenario.settings_percent
  ∧ has_option Scenario.settings_percent "SETTINGS" "output_directory" = true
  ∧ get Scenario.env_percent Scenario.settings_percent "SETTINGS" "output_directory"
    = inl (OtherException "InterpolationSyntaxError"
             "'%' must be followed by '%' or '(', found: '%'")
  ∧ load_and_check_config Scenario.env_percent "settings.cfg"
    = inl (InvalidConfigFile
             ("Error while checking config: "
              +:+ str_exn (OtherException "InterpolationSyntaxError"
                             "'%' must be followed by '%' or '(', found: '%'"))).
Proof.
  split_and!; [reflexivity | reflexivity | reflexivity |].
  apply (loader_wraps_get_exception Scenario.env_percent "settings.cfg"
           Scenario.settings_percent ["input_css_files"] "output_directory"
           ["django_directory"; "django_apps"]);
    [reflexivity | reflexivity | | reflexivity | reflexivity].
  intros k Hk. apply list_elem_of_singleton in Hk. subst k.
  split; [reflexivity | eexists; split; [reflexivity | discriminate]].
Defined.

Lemma loader_needs_settings_section_witness :
  read_file Scenario.env_default "settings.cfg" = inr Scenario.settings_in_default
  ∧ cp_sections Scenario.settings_in_default !! "SETTINGS" = None
  ∧ cp_defaults Scenario.settings_in_default !! "input_css_files" = Some "static/a.css"
  ∧ load_and_check_config Scenario.env_default "settings.cfg"
    = inl (InvalidConfigFile
             "Error while checking config: Missing or empty key input_css_files in [OPTIONS]").
Proof.
  split_and!; [reflexivity | reflexivity | reflexivity |].
  apply (loader_needs_settings_section Scenario.env_default "settings.cfg"
           Scenario.settings_in_default); reflexivity.
Defined.

Lemma empty_fragment_matches_every_dir_witness :
  "" ∈ split_setting "blog,"
  ∧ scan (split_setting "blog,") (os_walk "proj" Demo.project)
    = map (λ e, we_root e +:+ "/*.html")
          (List.filter has_own_html_outside_around (os_walk "proj" Demo.project)).
Proof.
  assert ("" ∈ split_setting "blog,") as Hempty.
  { apply list_elem_of_In. right. left. reflexivity. }
  split; [exact Hempty|].
  exact (empty_fragment_matches_every_dir (split_setting "blog,")
           (os_walk "proj" Demo.project) Hempty).
Defined.

Lemma scan_empty_when_top_has_around_witness :
  tree_names_ok Demo.project = true
  ∧ is_substring "around" "/home/me/turnaround/proj"
  ∧ scan ["blog"; "shop"] (os_walk "/home/me/turnaround/proj" Demo.project) = [].
Proof.
  assert (is_substring "around" "/home/me/turnaround/proj") as Haround.
  { exists "/home/me/turn", "/proj". reflexivity. }
  split_and!; [reflexivity | exact Haround |].
  exact (scan_empty_when_top_has_around ["blog"; "shop"] "/home/me/turnaround/proj"
           Demo.project eq_refl Haround).
Defined.

Lemma scan_unfiltered_when_top_has_fragment_witness :
  tree_names_ok Demo.project = true
  ∧ "blog" ∈ ["blog"]
  ∧ is_substring "blog" "/srv/blog_site"
  ∧ scan ["blog"] (os_walk "/srv/blog_site" Demo.project)
    = map (λ e, we_root e +:+ "/*.html")
          (List.filter has_own_html_outside_around
             (os_walk "/srv/blog_site" Demo.project)).
Proof.
  assert ("blog" ∈ ["blog"]) as Happ by (apply list_elem_of_In; left; reflexivity).
  assert (is_substring "blog" "/srv/blog_site") as Htop.
  { exists "/srv/", "_site". reflexivity. }
  split_and!; [reflexivity | exact Happ | exact Htop |].
  exact (scan_unfiltered_when_top_has_fragment ["blog"] "blog" "/srv/blog_site"
           Demo.project eq_refl Happ Htop).
Defined.

Lemma same_name_same_destination_witness :
  Str.contains "/" "site.css" = false
  ∧ output_filename ("static/admin" +:+ "/" +:+ "site.css") = output_filename "site.css"
  ∧ output_filename ("static/admin" +:+ "/" +:+ "site.css")
    = output_filename ("static/shop" +:+ "/" +:+ "site.css").
Proof.
  split; [reflexivity|].
  apply (same_name_same_destination "static/admin" "static/shop" "site.css").
  reflexivity.
Defined.
